(** * Identity-verification wizard: workflow and camera model

    A shallow embedding of the [App] component of [src/index.tsx] (and of
    its second revision [src/unnamed/part_000], which differs in the
    requested resolution and in the JPEG quality only).

    The component is event driven: every click handler and every resumption
    of an [async] function after an [await] runs to completion before the
    next one starts.  The embedding therefore is a labelled transition
    system: [handle w e] runs the handler for event [e] in world [w],
    followed by React's re-render and effects.  The browser (camera
    streams, the mounted <video>, the suspended [async] calls) is part of
    the world. *)

From Stdlib Require Import ZArith NArith String Ascii List Bool Lia.
From stdpp Require Import base option list.
Import ListNotations.

Local Open Scope string_scope.
Local Open Scope list_scope.
Local Open Scope Z_scope.

(** ** JavaScript values *)

(** What [JSON.parse] can return, plus [undefined].  A number is kept as
    the literal it was read from; its double value is not modelled. *)
#[warnings="-register-all"]
Inductive JsValue : Type :=
| JUndefined
| JNull
| JBool (b : bool)
| JNum (literal : string)
| JStr (s : string)
| JArr (items : list JsValue)
| JObj (fields : list (string * JsValue)).

(** Own-property lookup on an association list of fields. *)
Fixpoint assoc (k : string) (fields : list (string * JsValue)) : JsValue :=
  match fields with
  | [] => JUndefined
  | (k', v) :: rest => if String.eqb k k' then v else assoc k rest
  end.

(** [v.k] for the property names read by the component ([isMatch],
    [reasoning]): only an object has such properties. *)
Definition get_prop (v : JsValue) (k : string) : JsValue :=
  match v with
  | JObj fields => assoc k fields
  | _ => JUndefined
  end.

(** [v?.k]: optional chaining stops at [null] and [undefined]. *)
Definition opt_chain (v : JsValue) (k : string) : JsValue :=
  match v with
  | JUndefined | JNull => JUndefined
  | _ => get_prop v k
  end.

(** Truthiness of a [string | null] state variable: [null] and the empty
    string are falsy. *)
Definition truthy_str (o : option string) : bool :=
  match o with
  | None => false
  | Some s => negb (String.eqb s EmptyString)
  end.

(** [s.split(sep)] for a one-character separator. *)
Fixpoint split (sep : ascii) (s : string) : list string :=
  match s with
  | EmptyString => [EmptyString]
  | String c rest =>
      if Ascii.eqb c sep then EmptyString :: split sep rest
      else match split sep rest with
           | [] => [String c EmptyString]
           | piece :: pieces => String c piece :: pieces
           end
  end.

(** ** A reference JSON reader

    [JSON.parse] is a built-in and enters the model as a parameter.  This
    reader of the escape-free fragment of JSON instantiates it in the
    examples; a text outside the fragment is rejected. *)
Module MiniJson.

Definition is_space (c : ascii) : bool :=
  Ascii.eqb c " " || Ascii.eqb c "009" || Ascii.eqb c "010" || Ascii.eqb c "013".

Definition is_num_char (c : ascii) : bool :=
  let n := nat_of_ascii c in
  ((48 <=? n)%nat && (n <=? 57)%nat)
  || Ascii.eqb c "-" || Ascii.eqb c "+" || Ascii.eqb c "." || Ascii.eqb c "e" || Ascii.eqb c "E".

Definition dquote : ascii := ascii_of_nat 34.
Definition backslash : ascii := ascii_of_nat 92.

Fixpoint skip (cs : list ascii) : list ascii :=
  match cs with
  | c :: rest => if is_space c then skip rest else cs
  | [] => []
  end.

(** The characters of a string literal after its opening quote. *)
Fixpoint read_string (cs : list ascii) : option (string * list ascii) :=
  match cs with
  | [] => None
  | c :: rest =>
      if Ascii.eqb c dquote then Some (EmptyString, rest)
      else if Ascii.eqb c backslash then None
      else match read_string rest with
           | Some (s, rest') => Some (String c s, rest')
           | None => None
           end
  end.

Fixpoint read_number (cs : list ascii) : string * list ascii :=
  match cs with
  | c :: rest =>
      if is_num_char c
      then let '(s, rest') := read_number rest in (String c s, rest')
      else (EmptyString, cs)
  | [] => (EmptyString, [])
  end.

Fixpoint starts_with (p cs : list ascii) : option (list ascii) :=
  match p, cs with
  | [], _ => Some cs
  | a :: p', c :: cs' => if Ascii.eqb a c then starts_with p' cs' else None
  | _ :: _, [] => None
  end.

(** A later binding of a key replaces an earlier one. *)
Fixpoint put (k : string) (v : JsValue) (fields : list (string * JsValue))
  : list (string * JsValue) :=
  match fields with
  | [] => [(k, v)]
  | (k', v') :: rest =>
      if String.eqb k k' then (k, v) :: rest else (k', v') :: put k v rest
  end.

Fixpoint value (fuel : nat) (cs : list ascii) {struct fuel}
  : option (JsValue * list ascii) :=
  match fuel with
  | O => None
  | S fuel' =>
      let items :=
        fix items (n : nat) (acc : list JsValue) (cs : list ascii) {struct n}
          : option (JsValue * list ascii) :=
          match n with
          | O => None
          | S n' =>
              match value fuel' cs with
              | Some (v, rest) =>
                  match skip rest with
                  | c :: rest' =>
                      if Ascii.eqb c "," then items n' (acc ++ [v]) rest'
                      else if Ascii.eqb c "]" then Some (JArr (acc ++ [v]), rest')
                      else None
                  | [] => None
                  end
              | None => None
              end
          end in
      let members :=
        fix members (n : nat) (acc : list (string * JsValue)) (cs : list ascii)
          {struct n} : option (JsValue * list ascii) :=
          match n with
          | O => None
          | S n' =>
              match skip cs with
              | q :: rest =>
                  if Ascii.eqb q dquote then
                    match read_string rest with
                    | Some (k, rest1) =>
                        match skip rest1 with
                        | colon :: rest2 =>
                            if Ascii.eqb colon ":" then
                              match value fuel' rest2 with
                              | Some (v, rest3) =>
                                  match skip rest3 with
                                  | c :: rest4 =>
                                      if Ascii.eqb c "," then members n' (put k v acc) rest4
                                      else if Ascii.eqb c "}" then Some (JObj (put k v acc), rest4)
                                      else None
                                  | [] => None
                                  end
                              | None => None
                              end
                            else None
                        | [] => None
                        end
                    | None => None
                    end
                  else None
              | [] => None
              end
          end in
      match skip cs with
      | [] => None
      | c :: rest =>
          if Ascii.eqb c "{" then
            match skip rest with
            | c' :: rest' =>
                if Ascii.eqb c' "}" then Some (JObj [], rest')
                else members (S (length rest)) [] rest
            | [] => None
            end
          else if Ascii.eqb c "[" then
            match skip rest with
            | c' :: rest' =>
                if Ascii.eqb c' "]" then Some (JArr [], rest')
                else items (S (length rest)) [] rest
            | [] => None
            end
          else if Ascii.eqb c dquote then
            match read_string rest with
            | Some (s, rest') => Some (JStr s, rest')
            | None => None
            end
          else if is_num_char c then
            let '(s, rest') := read_number (c :: rest) in Some (JNum s, rest')
          else match starts_with (list_ascii_of_string "true") (c :: rest) with
               | Some rest' => Some (JBool true, rest')
               | None =>
                   match starts_with (list_ascii_of_string "false") (c :: rest) with
                   | Some rest' => Some (JBool false, rest')
                   | None =>
                       match starts_with (list_ascii_of_string "null") (c :: rest) with
                       | Some rest' => Some (JNull, rest')
                       | None => None
                       end
                   end
               end
      end
  end.

(** [None] stands for the [SyntaxError] that [JSON.parse] throws. *)
Definition parse (text : string) : option JsValue :=
  let cs := list_ascii_of_string text in
  match value (S (length cs)) cs with
  | Some (v, rest) => match skip rest with [] => Some v | _ :: _ => None end
  | None => None
  end.

Definition quoted (s : string) : string :=
  String dquote (String.append s (String dquote EmptyString)).

(** No number is falsy here: the examples use no zero. *)
Definition number_truthy (literal : string) : bool := true.

End MiniJson.

(** ** The two revisions of the source *)

Inductive Build : Type :=
| IndexTsx    (* src/index.tsx *)
| Part000.    (* src/unnamed/part_000 *)

(** [width: { ideal: ... }] and [height: { ideal: ... }] of [startCamera]. *)
Definition idealWidth (b : Build) : Z :=
  match b with IndexTsx => 1920 | Part000 => 1280 end.

Definition idealHeight (b : Build) : Z :=
  match b with IndexTsx => 1080 | Part000 => 720 end.

(** The quality argument of [toDataURL], in hundredths (0.9 and 0.85). *)
Definition jpegQuality (b : Build) : Z :=
  match b with IndexTsx => 90 | Part000 => 85 end.

(** ** Canvas

    The 2D context keeps a transform [[a c e; b d f]]; a point [(x, y)] of
    the source lands on [(a*x + c*y + e, b*x + d*y + f)]. *)

Definition Pixel : Type := Z.

Record Matrix : Type := mkMatrix {
  ma : Z; mb : Z; mc : Z; md : Z; me : Z; mf : Z
}.

Definition identity : Matrix := mkMatrix 1 0 0 1 0 0.

(** [context.translate(tx, ty)] *)
Definition translate (tx ty : Z) (m : Matrix) : Matrix :=
  mkMatrix (ma m) (mb m) (mc m) (md m)
           (ma m * tx + mc m * ty + me m) (mb m * tx + md m * ty + mf m).

(** [context.scale(sx, sy)] *)
Definition scale (sx sy : Z) (m : Matrix) : Matrix :=
  mkMatrix (ma m * sx) (mb m * sx) (mc m * sy) (md m * sy) (me m) (mf m).

(** [context.setTransform(a, b, c, d, e, f)] *)
Definition setTransform (a b c d e f : Z) (m : Matrix) : Matrix :=
  mkMatrix a b c d e f.

(** The frame the <video> element shows when the shutter is pressed. *)
Record VideoFrame : Type := mkFrame {
  videoWidth : N;
  videoHeight : N;
  pixelAt : Z -> Z -> Pixel
}.

Record Canvas : Type := mkCanvas {
  width : N;
  height : N;
  transform : Matrix;
  bitmap : Z -> Z -> option Pixel
}.

(** Assigning [canvas.width] and [canvas.height] clears the bitmap and
    resets the context, whatever the canvas held before. *)
Definition resize (w h : N) : Canvas :=
  mkCanvas w h identity (fun _ _ => None).

Definition withTransform (f : Matrix -> Matrix) (c : Canvas) : Canvas :=
  mkCanvas (width c) (height c) (f (transform c)) (bitmap c).

(** [context.drawImage(video, 0, 0)]: the canvas pixel [(X, Y)] takes the
    colour of the frame pixel under the pre-image of its centre, when that
    pixel exists (nearest-neighbour sampling; exact for the unit
    transforms that [captureImage] sets up). *)
Definition drawImage (v : VideoFrame) (c : Canvas) : Canvas :=
  let m := transform c in
  let det := ma m * md m - mb m * mc m in
  mkCanvas (width c) (height c) m
    (fun X Y =>
       if negb (0 <=? X) || negb (X <? Z.of_N (width c))
          || negb (0 <=? Y) || negb (Y <? Z.of_N (height c))
       then None
       else if det =? 0 then bitmap c X Y
       else
         let u := 2 * X + 1 - 2 * me m in
         let t := 2 * Y + 1 - 2 * mf m in
         let x := (md m * u - mc m * t) / (2 * det) in
         let y := (ma m * t - mb m * u) / (2 * det) in
         if (0 <=? x) && (x <? Z.of_N (videoWidth v))
            && (0 <=? y) && (y <? Z.of_N (videoHeight v))
         then Some (pixelAt v x y)
         else bitmap c X Y).

(** ** Camera streams *)

Inductive TrackState : Type := live | ended.

(** A [MediaStream] is the list of its tracks. *)
Definition MediaStream : Type := list TrackState.

(** [stream.getTracks().forEach(track => track.stop())] *)
Definition stopTracks (s : MediaStream) : MediaStream :=
  map (fun _ => ended) s.

Definition is_live (t : TrackState) : bool :=
  match t with live => true | ended => false end.

(** A stream keeps the camera open as long as one of its tracks is live. *)
Definition active (s : MediaStream) : bool := existsb is_live s.

Inductive FacingMode : Type := user | environment.

(** The argument of [getUserMedia]. *)
Inductive Constraints : Type :=
| Ideal (mode : FacingMode) (w h : Z)   (* facingMode, width, height: ideal *)
| AnyVideo.                             (* { video: true } *)

(** A call of [startCamera] that is suspended at one of its two awaits. *)
Inductive CameraRequest : Type :=
| AwaitPrimary (c : Constraints)
| AwaitFallback (c : Constraints).

(** ** Component state *)

Inductive AppStep : Type :=
| Welcome | CaptureId | ReviewId | CaptureSelfie | ReviewSelfie | Processing | Result.

(** The [useState] variables of [App]. *)
Record AppState : Type := mkApp {
  step : AppStep;
  idImage : option string;
  selfieImage : option string;
  result : JsValue;              (* [JNull] is [null] *)
  error : option string;
  facingMode : FacingMode;
  hasMultipleCameras : bool
}.

(** The two image payloads handed to [generateContent]; [None] is the
    [undefined] that [split(',')[1]] gives for a text without a comma. *)
Definition CallArgs : Type := (option string * option string)%type.

(** The component together with the browser around it. *)
Record World : Type := mkWorld {
  react : AppState;
  videoRef : option (option nat);    (* [videoRef.current]; inside, its [srcObject] *)
  streams : list MediaStream;        (* every stream [getUserMedia] handed out *)
  cameraRequests : list CameraRequest;
  verification : option CallArgs;    (* the suspended [runVerification] *)
  verificationLog : list CallArgs;   (* every call issued so far *)
  enumerating : bool                 (* [checkCameras] is still waiting *)
}.

Definition AppStep_eqb (a b : AppStep) : bool :=
  match a, b with
  | Welcome, Welcome | CaptureId, CaptureId | ReviewId, ReviewId
  | CaptureSelfie, CaptureSelfie | ReviewSelfie, ReviewSelfie
  | Processing, Processing | Result, Result => true
  | _, _ => false
  end.

Definition cameraErrorMessage : string :=
  "Could not access camera. Please ensure permissions are granted.".

Definition verificationErrorMessage : string :=
  "The verification engine encountered an error. Please try again.".

(** *** State setters *)

Definition setStep (s : AppStep) (a : AppState) : AppState :=
  mkApp s (idImage a) (selfieImage a) (result a) (error a) (facingMode a) (hasMultipleCameras a).

Definition setIdImage (i : option string) (a : AppState) : AppState :=
  mkApp (step a) i (selfieImage a) (result a) (error a) (facingMode a) (hasMultipleCameras a).

Definition setSelfieImage (i : option string) (a : AppState) : AppState :=
  mkApp (step a) (idImage a) i (result a) (error a) (facingMode a) (hasMultipleCameras a).

Definition setResult (r : JsValue) (a : AppState) : AppState :=
  mkApp (step a) (idImage a) (selfieImage a) r (error a) (facingMode a) (hasMultipleCameras a).

Definition setError (e : option string) (a : AppState) : AppState :=
  mkApp (step a) (idImage a) (selfieImage a) (result a) e (facingMode a) (hasMultipleCameras a).

Definition setFacingMode (f : FacingMode) (a : AppState) : AppState :=
  mkApp (step a) (idImage a) (selfieImage a) (result a) (error a) f (hasMultipleCameras a).

Definition setHasMultipleCameras (b : bool) (a : AppState) : AppState :=
  mkApp (step a) (idImage a) (selfieImage a) (result a) (error a) (facingMode a) b.

Definition onReact (f : AppState -> AppState) (w : World) : World :=
  mkWorld (f (react w)) (videoRef w) (streams w) (cameraRequests w)
          (verification w) (verificationLog w) (enumerating w).

Definition initialApp : AppState :=
  mkApp Welcome None None JNull None environment false.

(** The world after the first render: no <video>, [checkCameras] waiting. *)
Definition initial : World :=
  mkWorld initialApp None [] [] None [] true.

(** When React clears [videoRef.current] for a <video> that leaves the
    page, relative to the cleanup of the [useEffect] on [step]: React 18
    detaches the ref while it commits the new tree and runs the cleanup of
    a passive effect afterwards.  The other order is kept as an
    alternative; no result below depends on the choice. *)
Inductive RefTiming : Type :=
| DetachThenCleanup
| CleanupThenDetach.

(** What the user or the browser can do next. *)
Inductive Event : Type :=
| DevicesEnumerated (videoInputs : nat)    (* [enumerateDevices] resolves *)
| DevicesFailed                            (* [enumerateDevices] rejects *)
| ClickStart
| ClickCancel
| ClickFlip
| ClickShutter (context : bool) (v : VideoFrame)
| ClickRetake
| ClickConfirm
| ClickNewVerification
| CameraResolves (i : nat) (tracks : nat)  (* the i-th pending [getUserMedia] resolves *)
| CameraRejects (i : nat)                  (* the i-th pending [getUserMedia] rejects *)
| VerificationResolves (text : option string)   (* [response.text] *)
| VerificationThrows.

Inductive Heading : Type := HeadingError | HeadingPassed | HeadingFailed.

(** ** Sample data

    A frame, an encoder, a response and event sequences on which the
    results below are exercised. *)

(** A frame 3 pixels wide and 2 high; pixel [(x, y)] has colour [10*y + x]. *)
Definition sampleFrame : VideoFrame := mkFrame 3 2 (fun x y => 10 * y + x).

Definition sampleEncoder (quality : Z) (c : Canvas) : string := "/9j/4AAQ".

(** The response of the first example scenario of the specification. *)
Definition sampleResponse : string :=
  String.append "{"
    (String.append (MiniJson.quoted "isMatch")
       (String.append ": true, "
          (String.append (MiniJson.quoted "confidence")
             (String.append ": 0.94, "
                (String.append (MiniJson.quoted "reasoning")
                   (String.append ": "
                      (String.append (MiniJson.quoted "faces match") "}"))))))).

Definition sampleOutcome : JsValue :=
  JObj [("isMatch", JBool true); ("confidence", JNum "0.94");
        ("reasoning", JStr "faces match")].

Definition toCaptureId : list Event := [ClickStart; CameraResolves 0 1].

Definition toReviewId : list Event := toCaptureId ++ [ClickShutter true sampleFrame].

Definition toCaptureSelfie : list Event := toReviewId ++ [ClickConfirm; CameraResolves 0 1].

Definition toReviewSelfie : list Event := toCaptureSelfie ++ [ClickShutter true sampleFrame].

Definition toProcessing : list Event := toReviewSelfie ++ [ClickConfirm].

Definition toResult : list Event :=
  toProcessing ++ [VerificationResolves (Some sampleResponse)].

(** A device with two cameras, on the ID capture screen with the camera
    running. *)
Definition toFlip : list Event := [DevicesEnumerated 2; ClickStart; CameraResolves 0 1].

(** What a <video> shows before the camera has delivered a frame. *)
Definition blankFrame : VideoFrame := mkFrame 0 0 (fun _ _ => 0).

(** Start, cancel before the camera answers, start again; then both
    requests are granted. *)
Definition overlappingStarts : list Event :=
  [ClickStart; ClickCancel; ClickStart; CameraResolves 0 1; CameraResolves 0 1].

(** On a device with two cameras: flip twice before the first of the two
    new requests is granted. *)
Definition doubleFlip : list Event :=
  [DevicesEnumerated 2; ClickStart; CameraResolves 0 1;
   ClickFlip; ClickFlip; CameraResolves 0 1; CameraResolves 0 1].

(** A camera request that outlives its capture step: start, cancel
    before the camera answers, start again.  The second request and the
    one for the front camera are granted and both photos are taken; the
    first request and its retry are refused while the verification call
    is in flight. *)
Definition staleRequestRefused : list Event :=
  [ClickStart; ClickCancel; ClickStart; CameraResolves 1 1;
   ClickShutter true sampleFrame; ClickConfirm; CameraResolves 1 1;
   ClickShutter true sampleFrame; ClickConfirm;
   CameraRejects 0; CameraRejects 0].

(** The selfie is taken before the front camera has answered (the frame
    has no pixels yet) and confirmed; the camera and its retry are then
    refused while the verification call is in flight. *)
Definition selfieCameraRefused : list Event :=
  toReviewId ++ [ClickConfirm; ClickShutter true blankFrame; ClickConfirm;
                 CameraRejects 0; CameraRejects 0].

Section App.

Variable build : Build.

(** [JSON.parse]; [None] stands for a thrown [SyntaxError]. *)
Variable JSON_parse : string -> option JsValue.

(** The base64 payload the browser's JPEG encoder produces for a canvas
    at a quality given in hundredths. *)
Variable encodeJPEG : Z -> Canvas -> string.

(** Whether the double that a number literal denotes is truthy. *)
Variable number_truthy : string -> bool.

Variable refTiming : RefTiming.

(** *** Camera *)

Definition stopCamera (w : World) : World :=
  match videoRef w with
  | Some (Some id) =>
      mkWorld (react w) (Some None) (alter stopTracks id (streams w))
              (cameraRequests w) (verification w) (verificationLog w) (enumerating w)
  | _ => w
  end.

(** [startCamera] up to its first await.  [currentFacingMode || facingMode]:
    both facing modes are non-empty strings, so a given argument wins. *)
Definition startCamera (currentFacingMode : option FacingMode) (w : World) : World :=
  let w := stopCamera w in
  let mode := match currentFacingMode with
              | Some m => m
              | None => facingMode (react w)
              end in
  let constraints := Ideal mode (idealWidth build) (idealHeight build) in
  mkWorld (react w) (videoRef w) (streams w)
          (cameraRequests w ++ [AwaitPrimary constraints])
          (verification w) (verificationLog w) (enumerating w).

Definition dropRequest (i : nat) (w : World) : World :=
  mkWorld (react w) (videoRef w) (streams w) (delete i (cameraRequests w))
          (verification w) (verificationLog w) (enumerating w).

(** [getUserMedia] hands out a fresh stream, and
    [if (videoRef.current) videoRef.current.srcObject = stream]. *)
Definition bindStream (tracks : nat) (w : World) : World :=
  let id := length (streams w) in
  mkWorld (react w)
          (match videoRef w with
           | Some _ => Some (Some id)
           | None => None
           end)
          (streams w ++ [replicate tracks live])
          (cameraRequests w) (verification w) (verificationLog w) (enumerating w).

(** [startCamera] resumes after an await that succeeded. *)
Definition cameraResolves (i tracks : nat) (w : World) : option World :=
  match cameraRequests w !! i with
  | Some _ => Some (bindStream tracks (dropRequest i w))
  | None => None
  end.

(** [startCamera] resumes in one of its two [catch] blocks. *)
Definition cameraRejects (i : nat) (w : World) : option World :=
  match cameraRequests w !! i with
  | Some (AwaitPrimary _) =>
      Some (mkWorld (react w) (videoRef w) (streams w)
                    (<[i := AwaitFallback AnyVideo]> (cameraRequests w))
                    (verification w) (verificationLog w) (enumerating w))
  | Some (AwaitFallback _) =>
      Some (onReact (setError (Some cameraErrorMessage)) (dropRequest i w))
  | None => None
  end.

Definition flipCamera (w : World) : World :=
  let newMode := match facingMode (react w) with
                 | user => environment
                 | environment => user
                 end in
  startCamera (Some newMode) (onReact (setFacingMode newMode) w).

(** *** Capture *)

(** The canvas work of [captureImage] before [drawImage]: the two size
    assignments and, for the front camera, [translate] and [scale]. *)
Definition prepare (facing : FacingMode) (v : VideoFrame) : Canvas :=
  let c := resize (videoWidth v) (videoHeight v) in
  match facing with
  | user =>
      withTransform (scale (-1) 1)
        (withTransform (translate (Z.of_N (width c)) 0) c)
  | environment => c
  end.

(** ... and from [drawImage] to [setTransform]. *)
Definition paint (facing : FacingMode) (v : VideoFrame) : Canvas :=
  withTransform (setTransform 1 0 0 1 0 0) (drawImage v (prepare facing v)).

(** The horizontal flip of a picture [w] pixels wide. *)
Definition mirror (w : N) : Matrix := mkMatrix (-1) 0 0 1 (Z.of_N w) 0.

(** [canvas.toDataURL('image/jpeg', quality)]; a canvas without pixels
    gives the fixed text [data:,]. *)
Definition toDataURL (quality : Z) (c : Canvas) : string :=
  if (width c =? 0)%N || (height c =? 0)%N then "data:,"
  else String.append "data:image/jpeg;base64," (encodeJPEG quality c).

(** [context] tells whether [getContext('2d')] gave a context. *)
Definition captureImage (context : bool) (v : VideoFrame) (w : World) : World :=
  match videoRef w with
  | Some _ =>
      if context then
        let dataUrl := toDataURL (jpegQuality build) (paint (facingMode (react w)) v) in
        let w := match step (react w) with
                 | CaptureId =>
                     onReact (setStep ReviewId) (onReact (setIdImage (Some dataUrl)) w)
                 | _ =>
                     onReact (setStep ReviewSelfie) (onReact (setSelfieImage (Some dataUrl)) w)
                 end in
        stopCamera w
      else w
  | None => w
  end.

(** *** Verification *)

(** [image.split(',')[1]] *)
Definition base64Of (image : option string) : option string :=
  match image with
  | Some s => split "," s !! 1%nat
  | None => None
  end.

(** [runVerification] up to its await. *)
Definition runVerification (w : World) : World :=
  if negb (truthy_str (idImage (react w))) || negb (truthy_str (selfieImage (react w)))
  then w
  else
    let w := onReact (setError None) (onReact (setStep Processing) w) in
    let args := (base64Of (idImage (react w)), base64Of (selfieImage (react w))) in
    mkWorld (react w) (videoRef w) (streams w) (cameraRequests w)
            (Some args) (verificationLog w ++ [args]) (enumerating w).

Definition settle (w : World) : World :=
  mkWorld (react w) (videoRef w) (streams w) (cameraRequests w)
          None (verificationLog w) (enumerating w).

(** The [catch] block of [runVerification]. *)
Definition verificationCatch (w : World) : World :=
  onReact (setStep Result) (onReact (setError (Some verificationErrorMessage)) (settle w)).

(** [response.text || '{}'] *)
Definition textOrEmptyObject (text : option string) : string :=
  match text with
  | Some s => if truthy_str text then s else "{}"
  | None => "{}"
  end.

(** [runVerification] resumes after [generateContent] resolved. *)
Definition verificationResolves (text : option string) (w : World) : option World :=
  match verification w with
  | Some _ =>
      match JSON_parse (textOrEmptyObject text) with
      | Some data => Some (onReact (setStep Result) (onReact (setResult data) (settle w)))
      | None => Some (verificationCatch w)
      end
  | None => None
  end.

(** [runVerification] resumes after anything in its [try] block threw. *)
Definition verificationThrows (w : World) : option World :=
  match verification w with
  | Some _ => Some (verificationCatch w)
  | None => None
  end.

Definition reset (w : World) : World :=
  onReact (setStep Welcome)
    (onReact (setError None)
       (onReact (setResult JNull)
          (onReact (setSelfieImage None)
             (onReact (setIdImage None) w)))).

(** *** Rendering *)

(** The <video> is rendered in the two capture steps only. *)
Definition rendersVideo (s : AppStep) : bool :=
  match s with CaptureId | CaptureSelfie => true | _ => false end.

(** [step !== 'welcome' && step !== 'processing' && step !== 'result'] *)
Definition cancelOffered (s : AppStep) : bool :=
  match s with Welcome | Processing | Result => false | _ => true end.

Definition flipOffered (a : AppState) : bool :=
  rendersVideo (step a) && hasMultipleCameras a.

Definition truthy (v : JsValue) : bool :=
  match v with
  | JUndefined | JNull => false
  | JBool b => b
  | JNum literal => number_truthy literal
  | JStr s => negb (String.eqb s EmptyString)
  | JArr _ | JObj _ => true
  end.

(** [result?.isMatch ? ... : ...], which picks the icon and the colours. *)
Definition shownMatch (a : AppState) : bool :=
  truthy (opt_chain (result a) "isMatch").

Definition shownHeading (a : AppState) : Heading :=
  if truthy_str (error a) then HeadingError
  else if shownMatch a then HeadingPassed else HeadingFailed.

(** [error || result?.reasoning] *)
Definition shownText (a : AppState) : JsValue :=
  match error a with
  | Some e => if truthy_str (error a) then JStr e else opt_chain (result a) "reasoning"
  | None => opt_chain (result a) "reasoning"
  end.

(** *** Re-render and effects

    After a handler changed [step], React commits the new tree and runs
    the effect on [step]: the cleanup of the previous run ([stopCamera])
    and then the body for the new step. *)

Definition remount (old new : AppStep) (w : World) : World :=
  mkWorld (react w)
          (if rendersVideo new
           then (if rendersVideo old then videoRef w else Some None)
           else None)
          (streams w) (cameraRequests w) (verification w) (verificationLog w)
          (enumerating w).

Definition stepEffect (w : World) : World :=
  match step (react w) with
  | CaptureId => startCamera (Some environment) (onReact (setFacingMode environment) w)
  | CaptureSelfie => startCamera (Some user) (onReact (setFacingMode user) w)
  | _ => w
  end.

Definition commit (old : AppStep) (w : World) : World :=
  let new := step (react w) in
  if AppStep_eqb old new then w
  else
    let w := match refTiming with
             | DetachThenCleanup => stopCamera (remount old new w)
             | CleanupThenDetach => remount old new (stopCamera w)
             end in
    stepEffect w.

(** *** The transition function

    [None]: the event cannot happen in this world (the button is not on
    the page, or nothing is waiting for the answer). *)
Definition dispatch (w : World) (e : Event) : option World :=
  let a := react w in
  match e with
  | DevicesEnumerated n =>
      if enumerating w
      then Some (mkWorld (setHasMultipleCameras (1 <? n)%nat a) (videoRef w) (streams w)
                         (cameraRequests w) (verification w) (verificationLog w) false)
      else None
  | DevicesFailed =>
      if enumerating w
      then Some (mkWorld a (videoRef w) (streams w) (cameraRequests w)
                         (verification w) (verificationLog w) false)
      else None
  | ClickStart =>
      match step a with
      | Welcome => Some (onReact (setStep CaptureId) w)
      | _ => None
      end
  | ClickCancel =>
      if cancelOffered (step a) then Some (reset w) else None
  | ClickFlip =>
      if flipOffered a then Some (flipCamera w) else None
  | ClickShutter context v =>
      if rendersVideo (step a) then Some (captureImage context v w) else None
  | ClickRetake =>
      match step a with
      | ReviewId => Some (onReact (setStep CaptureId) w)
      | ReviewSelfie => Some (onReact (setStep CaptureSelfie) w)
      | _ => None
      end
  | ClickConfirm =>
      match step a with
      | ReviewId => Some (onReact (setStep CaptureSelfie) w)
      | ReviewSelfie => Some (runVerification w)
      | _ => None
      end
  | ClickNewVerification =>
      match step a with
      | Result => Some (reset w)
      | _ => None
      end
  | CameraResolves i tracks => cameraResolves i tracks w
  | CameraRejects i => cameraRejects i w
  | VerificationResolves text => verificationResolves text w
  | VerificationThrows => verificationThrows w
  end.

Definition handle (w : World) (e : Event) : option World :=
  match dispatch w e with
  | Some w' => Some (commit (step (react w)) w')
  | None => None
  end.

Fixpoint run (w : World) (es : list Event) : option World :=
  match es with
  | [] => Some w
  | e :: rest =>
      match handle w e with
      | Some w' => run w' rest
      | None => None
      end
  end.

Inductive reachable : World -> Prop :=
| reachable_initial : reachable initial
| reachable_step w e w' : reachable w -> handle w e = Some w' -> reachable w'.

(** The streams that keep a camera open. *)
Definition openStreams (w : World) : list MediaStream :=
  filter (fun s => active s = true) (streams w).

(** The stream attached to the <video>, if any. *)
Definition boundStream (w : World) : option nat :=
  match videoRef w with
  | Some (Some id) => Some id
  | _ => None
  end.

(** *** Invariants of the reachable worlds *)

(** Two worlds that agree on everything but the camera and the facing
    mode. *)
Definition sameCore (w1 w2 : World) : Prop :=
  step (react w2) = step (react w1)
  /\ idImage (react w2) = idImage (react w1)
  /\ selfieImage (react w2) = selfieImage (react w1)
  /\ result (react w2) = result (react w1)
  /\ error (react w2) = error (react w1)
  /\ verification w2 = verification w1
  /\ verificationLog w2 = verificationLog w1.

Definition needsIdImage (s : AppStep) : bool :=
  match s with
  | ReviewId | CaptureSelfie | ReviewSelfie | Processing => true
  | _ => false
  end.

Definition needsSelfieImage (s : AppStep) : bool :=
  match s with
  | ReviewSelfie | Processing => true
  | _ => false
  end.

Record Inv (w : World) : Prop := mkInv {
  inv_id : needsIdImage (step (react w)) = true -> truthy_str (idImage (react w)) = true;
  inv_selfie :
    needsSelfieImage (step (react w)) = true -> truthy_str (selfieImage (react w)) = true;
  inv_id_url : idImage (react w) = None \/ truthy_str (idImage (react w)) = true;
  inv_selfie_url : selfieImage (react w) = None \/ truthy_str (selfieImage (react w)) = true;
  inv_result : result (react w) <> JNull -> step (react w) = Result;
  inv_pending : verification w <> None <-> step (react w) = Processing;
  inv_error :
    step (react w) = Processing ->
    error (react w) = None \/ error (react w) = Some cameraErrorMessage
}.

(** The world after a sequence of events from the first render (the
    first render itself when the sequence cannot happen). *)
Definition after (es : list Event) : World :=
  match run initial es with
  | Some w => w
  | None => initial
  end.

(** *** Vocabulary of the further results *)

(** The step changes that some handler makes. *)
Definition nextStep (a b : AppStep) : bool :=
  match a, b with
  | Welcome, CaptureId
  | CaptureId, ReviewId | CaptureId, Welcome
  | ReviewId, CaptureId | ReviewId, CaptureSelfie | ReviewId, Welcome
  | CaptureSelfie, ReviewSelfie | CaptureSelfie, Welcome
  | ReviewSelfie, CaptureSelfie | ReviewSelfie, Processing | ReviewSelfie, Welcome
  | Processing, Result
  | Result, Welcome => true
  | _, _ => false
  end.

(** The events that are presses of a button. *)
Definition isClick (e : Event) : bool :=
  match e with
  | ClickStart | ClickCancel | ClickFlip | ClickShutter _ _
  | ClickRetake | ClickConfirm | ClickNewVerification => true
  | _ => false
  end.

Definition toggled (f : FacingMode) : FacingMode :=
  match f with user => environment | environment => user end.

(** Whether [videoRef.current] is an element. *)
Definition mounted (w : World) : bool :=
  match videoRef w with Some _ => true | None => false end.

(** The two messages the component ever passes to [setError], or null. *)
Definition fixedMessage (o : option string) : Prop :=
  o = None \/ o = Some cameraErrorMessage \/ o = Some verificationErrorMessage.

Fixpoint noComma (s : string) : bool :=
  match s with
  | EmptyString => true
  | String c rest => negb (Ascii.eqb c ",") && noComma rest
  end.

(** A stored image is null or came out of [toDataURL]. *)
Definition isDataURL (o : option string) : Prop :=
  o = None \/ exists q c, o = Some (toDataURL q c).

(** [l'] holds the streams of [l], track for track, with no ended track
    live again. *)
Definition onlyStops (l l' : list MediaStream) : Prop :=
  length l' = length l
  /\ forall id s, l !! id = Some s ->
       exists s', l' !! id = Some s'
                  /\ length s' = length s
                  /\ (active s = false -> active s' = false).

(** The streams an event hands to the page. *)
Definition opened (e : Event) : list MediaStream :=
  match e with
  | CameraResolves _ tracks => [replicate tracks live]
  | _ => []
  end.

(** *** What the camera and the re-render leave alone *)

Ltac core_crush :=
  repeat match goal with
         | |- context [match ?x with _ => _ end] => destruct x
         end;
  cbn; repeat split; reflexivity.

Lemma sameCore_refl w : sameCore w w.
Proof. repeat split. Qed.

Lemma sameCore_trans w1 w2 w3 : sameCore w1 w2 -> sameCore w2 w3 -> sameCore w1 w3.
Proof.
  unfold sameCore. intros (a1 & a2 & a3 & a4 & a5 & a6 & a7) (b1 & b2 & b3 & b4 & b5 & b6 & b7).
  repeat split; congruence.
Qed.

Lemma stopCamera_core w : sameCore w (stopCamera w).
Proof. unfold stopCamera. core_crush. Qed.

Lemma stopCamera_react w : react (stopCamera w) = react w.
Proof. unfold stopCamera. destruct (videoRef w) as [[?|]|]; reflexivity. Qed.

Lemma remount_core old new w : sameCore w (remount old new w).
Proof. repeat split. Qed.

Lemma setFacingMode_core f w : sameCore w (onReact (setFacingMode f) w).
Proof. repeat split. Qed.

Lemma startCamera_core m w : sameCore w (startCamera m w).
Proof.
  eapply sameCore_trans; [apply (stopCamera_core w)|].
  unfold startCamera. repeat split.
Qed.

Lemma flipCamera_core w : sameCore w (flipCamera w).
Proof.
  unfold flipCamera.
  eapply sameCore_trans; [apply setFacingMode_core | apply startCamera_core].
Qed.

Lemma stepEffect_core w : sameCore w (stepEffect w).
Proof.
  unfold stepEffect. destruct (step (react w));
    try apply sameCore_refl;
    (eapply sameCore_trans; [apply setFacingMode_core | apply startCamera_core]).
Qed.

Lemma commit_core old w : sameCore w (commit old w).
Proof.
  unfold commit. destruct (AppStep_eqb old (step (react w))); [apply sameCore_refl|].
  eapply sameCore_trans; [|apply stepEffect_core].
  destruct refTiming.
  - eapply sameCore_trans; [apply remount_core | apply stopCamera_core].
  - eapply sameCore_trans; [apply stopCamera_core | apply remount_core].
Qed.

Lemma Inv_core w1 w2 : sameCore w1 w2 -> Inv w1 -> Inv w2.
Proof.
  intros (e1 & e2 & e3 & e4 & e5 & e6 & e7) [i1 i2 i3 i4 i5 i6 i7].
  constructor; rewrite ?e1, ?e2, ?e3, ?e4, ?e5, ?e6; assumption.
Qed.

Lemma AppStep_eqb_eq a b : AppStep_eqb a b = true <-> a = b.
Proof. destruct a, b; cbn; split; congruence. Qed.

Lemma toDataURL_truthy q c : truthy_str (Some (toDataURL q c)) = true.
Proof.
  unfold toDataURL. destruct ((width c =? 0)%N || (height c =? 0)%N); reflexivity.
Qed.

Lemma Inv_initial : Inv initial.
Proof.
  constructor; cbn; try discriminate; try tauto; auto.
  split; intro H; [contradiction | discriminate].
Qed.


(** *** The invariant holds in every reachable world *)

Ltac inv_some :=
  match goal with
  | H : Some _ = Some _ |- _ => inversion H; subst; clear H
  | H : None = Some _ |- _ => discriminate H
  | H : (if ?b then _ else _) = Some _ |- _ => destruct b eqn:?
  | H : match ?x with _ => _ end = Some _ |- _ => destruct x eqn:?
  end.

Lemma reset_Inv w : step (react w) <> Processing -> Inv w -> Inv (reset w).
Proof.
  intros Hs [i1 i2 i3 i4 i5 i6 i7].
  constructor; cbn; try discriminate; auto.
  - intros H; contradiction.
  - split; [|discriminate]. intros H. apply i6 in H. contradiction.
Qed.

Lemma captureImage_Inv context v w :
  rendersVideo (step (react w)) = true -> Inv w -> Inv (captureImage context v w).
Proof.
  intros Hs Hi. unfold captureImage.
  destruct (videoRef w); [|assumption]. destruct context; [|assumption].
  eapply Inv_core; [apply stopCamera_core|].
  destruct Hi as [i1 i2 i3 i4 i5 i6 i7].
  destruct w as [[s0 im sf r0 er fm hm] vr st cr ver vl en]; cbn in *.
  destruct s0; try discriminate Hs; cbn;
    constructor; cbn; intros;
    try apply toDataURL_truthy; try (right; apply toDataURL_truthy);
    try discriminate; auto.
  - apply i5 in H. discriminate.
  - split; [|discriminate]. intros H. apply i6 in H. discriminate.
  - apply i5 in H. discriminate.
  - split; [|discriminate]. intros H. apply i6 in H. discriminate.
Qed.

Lemma runVerification_Inv w :
  step (react w) = ReviewSelfie -> Inv w -> Inv (runVerification w).
Proof.
  intros Hs Hi. unfold runVerification.
  destruct (negb (truthy_str (idImage (react w)))
            || negb (truthy_str (selfieImage (react w)))) eqn:Hg; [assumption|].
  apply orb_false_elim in Hg. destruct Hg as [Hid Hsf].
  apply negb_false_iff in Hid, Hsf.
  destruct Hi as [i1 i2 i3 i4 i5 i6 i7].
  constructor; cbn; auto.
  - intros H. apply i5 in H. congruence.
  - split; [reflexivity | discriminate].
Qed.

Lemma dispatch_Inv w e w' : Inv w -> dispatch w e = Some w' -> Inv w'.
Proof.
  intros Hi H. pose proof Hi as [i1 i2 i3 i4 i5 i6 i7].
  destruct e; cbn in H.
  4: { destruct (cancelOffered (step (react w))) eqn:Hc; [|discriminate].
       inversion H; subst. apply reset_Inv; [|assumption].
       intros Hp. rewrite Hp in Hc. discriminate. }
  4: { destruct (flipOffered (react w)); [|discriminate].
       inversion H; subst. eapply Inv_core; [apply flipCamera_core | assumption]. }
  4: { destruct (rendersVideo (step (react w))) eqn:Hr; [|discriminate].
       inversion H; subst. apply captureImage_Inv; assumption. }
  5: { destruct (step (react w)) eqn:Hs; try discriminate; inversion H; subst.
       - clear Hi. destruct w as [[s0 im sf r0 er fm hm] vr st cr ver vl en]; cbn in *; subst.
         constructor; cbn; intuition (try discriminate; try congruence).
       - apply runVerification_Inv; assumption. }
  all: clear Hi; destruct w as [[s0 im sf r0 er fm hm] vr st cr ver vl en]; cbn in *;
    unfold cameraResolves, cameraRejects, verificationResolves, verificationThrows in H;
    cbn in H; repeat inv_some;
    constructor; cbn; intuition (try discriminate; try congruence).
Qed.

Lemma handle_Inv w e w' : Inv w -> handle w e = Some w' -> Inv w'.
Proof.
  unfold handle. intros Hi H. destruct (dispatch w e) as [w1|] eqn:Hd; [|discriminate].
  inversion H; subst. eapply Inv_core; [apply commit_core|].
  eapply dispatch_Inv; eassumption.
Qed.

Lemma reachable_Inv w : reachable w -> Inv w.
Proof.
  induction 1 as [|w e w' _ IH H]; [apply Inv_initial | eapply handle_Inv; eassumption].
Qed.

Lemma run_reachable es : forall w w', reachable w -> run w es = Some w' -> reachable w'.
Proof.
  induction es as [|e es IH]; cbn; intros w w' Hw H.
  - inversion H; subst. assumption.
  - destruct (handle w e) as [w1|] eqn:He; [|discriminate].
    eapply IH; [|eassumption]. econstructor; eassumption.
Qed.

Lemma after_reachable es : reachable (after es).
Proof.
  unfold after. destruct (run initial es) as [w|] eqn:H.
  - eapply run_reachable; [apply reachable_initial | eassumption].
  - apply reachable_initial.
Qed.


Lemma handle_dispatch w e w' :
  handle w e = Some w' -> exists w1, dispatch w e = Some w1 /\ sameCore w1 w'.
Proof.
  unfold handle. destruct (dispatch w e) as [w1|]; [|discriminate].
  intros H. inversion H; subst. exists w1. split; [reflexivity | apply commit_core].
Qed.

(** *** Cancel *)

(** C1: in every state other than [welcome], [processing] and [result]
    the Cancel button is on the page, and pressing it leads to [welcome]
    with the ID image, the selfie, the stored outcome and the error
    message all cleared. *)
Theorem C1_cancel_resets_workflow (w : World) :
  step (react w) <> Welcome ->
  step (react w) <> Processing ->
  step (react w) <> Result ->
  cancelOffered (step (react w)) = true
  /\ exists w', handle w ClickCancel = Some w'
                /\ step (react w') = Welcome
                /\ idImage (react w') = None
                /\ selfieImage (react w') = None
                /\ result (react w') = JNull
                /\ error (react w') = None.
Proof.
  intros Hw Hp Hr.
  assert (Hc : cancelOffered (step (react w)) = true)
    by (destruct (step (react w)); cbn; congruence).
  split; [assumption|].
  unfold handle. cbn. rewrite Hc.
  eexists. split; [reflexivity|].
  destruct (commit_core (step (react w)) (reset w)) as (e1 & e2 & e3 & e4 & e5 & _).
  rewrite e1, e2, e3, e4, e5. cbn. repeat split.
Qed.

(** *** Review steps hold the image under review *)

(** C2: in every reachable world the ID image is non-null while the
    step is [review_id], and the selfie is non-null while the step is
    [review_selfie]; a review step is entered by the shutter only, which
    stores the data URL of the painted canvas as the image of that
    step. *)
Theorem C2_review_step_has_its_image (w : World) :
  reachable w ->
  (step (react w) = ReviewId -> idImage (react w) <> None)
  /\ (step (react w) = ReviewSelfie -> selfieImage (react w) <> None)
  /\ forall e w',
      handle w e = Some w' ->
      (step (react w) <> ReviewId -> step (react w') = ReviewId ->
       exists v, e = ClickShutter true v
                 /\ idImage (react w')
                    = Some (toDataURL (jpegQuality build) (paint (facingMode (react w)) v)))
      /\ (step (react w) <> ReviewSelfie -> step (react w') = ReviewSelfie ->
          exists v, e = ClickShutter true v
                    /\ selfieImage (react w')
                       = Some (toDataURL (jpegQuality build) (paint (facingMode (react w)) v))).
Proof.
  intros Hw. pose proof (reachable_Inv w Hw) as [i1 i2 _ _ _ _ _].
  split; [|split].
  - intros Hs. rewrite Hs in i1. specialize (i1 eq_refl).
    destruct (idImage (react w)); [discriminate | discriminate i1].
  - intros Hs. rewrite Hs in i2. specialize (i2 eq_refl).
    destruct (selfieImage (react w)); [discriminate | discriminate i2].
  - intros e w' H.
    destruct (handle_dispatch w e w' H) as (w1 & Hd & (e1 & e2 & e3 & _)).
    rewrite e1, e2, e3. clear H e1 e2 e3 i1 i2 Hw.
    destruct w as [[s0 im sf r0 er fm hm] vr st cr ver vl en].
    destruct e; cbn in Hd;
      unfold cameraResolves, cameraRejects, verificationResolves, verificationThrows,
        captureImage in Hd;
      cbn in Hd; repeat inv_some; cbn;
      try (split; intros; congruence).
    all: unfold runVerification, flipCamera, startCamera; rewrite ?stopCamera_react; cbn.
    all: try (split; intros; congruence).
    all: try (destruct (negb (truthy_str im) || negb (truthy_str sf)); cbn;
              split; intros; congruence).
    all: destruct s0; try discriminate; destruct vr; try destruct context;
      rewrite ?stopCamera_react; cbn;
      split; intros; try congruence; eexists; split; reflexivity.
Qed.

(** *** The stored outcome *)

(** C10: in every reachable world the stored outcome is null unless the
    step is [result], and every transition that leaves [result] goes to
    [welcome] and clears the outcome. *)
Theorem C10_outcome_only_in_result (w : World) :
  reachable w ->
  (result (react w) <> JNull -> step (react w) = Result)
  /\ (step (react w) <> Result -> result (react w) = JNull)
  /\ forall e w',
      step (react w) = Result ->
      handle w e = Some w' ->
      step (react w') <> Result ->
      step (react w') = Welcome /\ result (react w') = JNull.
Proof.
  intros Hw. pose proof (reachable_Inv w Hw) as [_ _ _ _ i5 i6 _].
  split; [assumption|]. split.
  - intros Hs. destruct (result (react w)) eqn:Hr; try reflexivity;
      exfalso; apply Hs, i5; discriminate.
  - intros e w' Hs H.
    destruct (handle_dispatch w e w' H) as (w1 & Hd & (e1 & _ & _ & e4 & _)).
    rewrite e1, e4. clear H e1 e4 i5 Hw.
    assert (Hv : verification w = None).
    { destruct (verification w) eqn:Hv; [|reflexivity].
      assert (Hp : step (react w) = Processing) by (apply i6; discriminate).
      congruence. }
    clear i6.
    destruct w as [[s0 im sf r0 er fm hm] vr st cr ver vl en]. cbn in Hs, Hv. subst.
    destruct e; cbn in Hd;
      unfold cameraResolves, cameraRejects, verificationResolves, verificationThrows in Hd;
      cbn in Hd; repeat inv_some; cbn; intros; try congruence; split; reflexivity.
Qed.


Lemma commit_same_step w : commit (step (react w)) w = w.
Proof.
  unfold commit.
  assert (H : AppStep_eqb (step (react w)) (step (react w)) = true)
    by (apply AppStep_eqb_eq; reflexivity).
  rewrite H. reflexivity.
Qed.

(** *** Confirm *)

(** The Continue button of [review_id] is a bare [setStep]. *)
Lemma confirm_review_id_moves_on (w : World) :
  step (react w) = ReviewId ->
  exists w', handle w ClickConfirm = Some w'
    /\ step (react w') = CaptureSelfie
    /\ verificationLog w' = verificationLog w.
Proof.
  intros Hs. unfold handle, dispatch. rewrite Hs.
  eexists. split; [reflexivity|].
  match goal with
  | |- context [commit ?o ?x] =>
      destruct (commit_core o x) as (e1 & _ & _ & _ & _ & _ & e7)
  end.
  rewrite e1, e7. split; reflexivity.
Qed.

(** C3: confirming [review_selfie] issues exactly one verification call
    if and only if both images are present (truthy, as the guard of
    [runVerification] tests them), and leaves the world as it is
    otherwise.  Confirming [review_id] in a reachable world leads to
    [capture_selfie] if and only if an ID image is present; both hold
    there, the step is taken and the image is present, and no call is
    issued. *)
Theorem C3_confirm_guards (w : World) :
  (step (react w) = ReviewSelfie ->
   exists w', handle w ClickConfirm = Some w'
     /\ (truthy_str (idImage (react w)) = true /\ truthy_str (selfieImage (react w)) = true ->
         step (react w') = Processing
         /\ verification w'
            = Some (base64Of (idImage (react w)), base64Of (selfieImage (react w)))
         /\ verificationLog w'
            = verificationLog w
                ++ [(base64Of (idImage (react w)), base64Of (selfieImage (react w)))])
     /\ (~ (truthy_str (idImage (react w)) = true
            /\ truthy_str (selfieImage (react w)) = true) -> w' = w)
     /\ (length (verificationLog w') = S (length (verificationLog w))
         <-> truthy_str (idImage (react w)) = true
             /\ truthy_str (selfieImage (react w)) = true))
  /\ (reachable w -> step (react w) = ReviewId ->
      exists w', handle w ClickConfirm = Some w'
        /\ (step (react w') = CaptureSelfie <-> idImage (react w) <> None)
        /\ (step (react w') = CaptureSelfie <-> truthy_str (idImage (react w)) = true)
        /\ step (react w') = CaptureSelfie
        /\ idImage (react w) <> None
        /\ verificationLog w' = verificationLog w).
Proof.
  split.
  - intros Hs. unfold handle, dispatch. rewrite Hs. unfold runVerification.
    destruct (truthy_str (idImage (react w))) eqn:Hi;
      destruct (truthy_str (selfieImage (react w))) eqn:Hf; cbn [negb orb].
    + eexists. split; [reflexivity|].
      match goal with
      | |- context [commit ?o ?x] =>
          destruct (commit_core o x) as (e1 & _ & _ & _ & _ & e6 & e7)
      end.
      rewrite e1, e6, e7. cbn.
      split; [intros _; repeat split|]. split; [intros H; exfalso; apply H; split; reflexivity|].
      rewrite length_app. cbn. split; [intros _; split; reflexivity | intros _; lia].
    + exists w. rewrite <- Hs at 1. rewrite commit_same_step.
      split; [reflexivity|]. split; [intros [_ H]; discriminate|].
      split; [reflexivity|]. split; [lia | intros [_ H]; discriminate].
    + exists w. rewrite <- Hs at 1. rewrite commit_same_step.
      split; [reflexivity|]. split; [intros [H _]; discriminate|].
      split; [reflexivity|]. split; [lia | intros [H _]; discriminate].
    + exists w. rewrite <- Hs at 1. rewrite commit_same_step.
      split; [reflexivity|]. split; [intros [H _]; discriminate|].
      split; [reflexivity|]. split; [lia | intros [H _]; discriminate].
  - intros Hw Hs. pose proof (reachable_Inv w Hw) as [i1 _ _ _ _ _ _].
    rewrite Hs in i1. specialize (i1 eq_refl).
    assert (Hn : idImage (react w) <> None)
      by (destruct (idImage (react w)); [discriminate | discriminate i1]).
    destruct (confirm_review_id_moves_on w Hs) as (w' & Hh & Hs' & Hl).
    exists w'. split; [assumption|].
    split; [split; intros _; assumption|].
    split; [split; intros _; assumption|].
    split; [assumption|]. split; assumption.
Qed.

(** *** Retake *)

(** C4: retake from a review step leads back to the capture step of the
    same role, mounts a fresh <video>, asks for the camera of that role
    again and leaves both stored images as they are; the image under
    review is replaced when the next shutter press stores a new one,
    which leaves the other image alone. *)
Theorem C4_retake_keeps_both_images (w : World) :
  step (react w) = ReviewId \/ step (react w) = ReviewSelfie ->
  exists w', handle w ClickRetake = Some w'
    /\ step (react w')
       = (match step (react w) with ReviewId => CaptureId | _ => CaptureSelfie end)
    /\ idImage (react w') = idImage (react w)
    /\ selfieImage (react w') = selfieImage (react w)
    /\ videoRef w' = Some None
    /\ facingMode (react w')
       = (match step (react w) with ReviewId => environment | _ => user end)
    /\ cameraRequests w'
       = cameraRequests w
           ++ [AwaitPrimary (Ideal (facingMode (react w'))
                                   (idealWidth build) (idealHeight build))]
    /\ forall v, exists w'',
        handle w' (ClickShutter true v) = Some w''
        /\ step (react w'') = step (react w)
        /\ (step (react w) = ReviewId ->
            idImage (react w'')
            = Some (toDataURL (jpegQuality build) (paint environment v))
            /\ selfieImage (react w'') = selfieImage (react w))
        /\ (step (react w) = ReviewSelfie ->
            selfieImage (react w'')
            = Some (toDataURL (jpegQuality build) (paint user v))
            /\ idImage (react w'') = idImage (react w)).
Proof.
  intros Hs.
  destruct w as [[s0 im sf r0 er fm hm] vr st cr ver vl en]. cbn in Hs.
  destruct Hs as [Hs|Hs]; subst s0; unfold handle; cbn;
    (eexists; split; [reflexivity|]);
    unfold commit; cbn; destruct refTiming; destruct vr as [[?|]|]; cbn;
    repeat (split; [reflexivity|]);
    intros v; (eexists; split; [reflexivity|]);
    cbn; repeat split; intros; congruence.
Qed.


(** *** The verification call comes back *)

Lemma processing_has_call w :
  reachable w -> step (react w) = Processing -> exists args, verification w = Some args.
Proof.
  intros Hw Hs. pose proof (reachable_Inv w Hw) as [_ _ _ _ _ i6 _].
  destruct (verification w) as [args|] eqn:Hv; [eauto|].
  apply i6 in Hs. contradiction.
Qed.

Lemma confirm_clears_error w0 w :
  step (react w0) = ReviewSelfie ->
  handle w0 ClickConfirm = Some w ->
  step (react w) = Processing ->
  error (react w) = None.
Proof.
  intros Hs H Hp.
  destruct (handle_dispatch _ _ _ H) as (w1 & Hd & (e1 & _ & _ & _ & e5 & _)).
  rewrite e5. rewrite e1 in Hp. clear H e1 e5.
  unfold dispatch in Hd. rewrite Hs in Hd. inversion Hd; subst. clear Hd.
  unfold runVerification in *.
  destruct (negb (truthy_str (idImage (react w0)))
            || negb (truthy_str (selfieImage (react w0)))); [congruence | reflexivity].
Qed.

Lemma handle_keeps_log w e w' :
  handle w e = Some w' -> e <> ClickConfirm -> verificationLog w' = verificationLog w.
Proof.
  intros H He.
  destruct (handle_dispatch _ _ _ H) as (w1 & Hd & (_ & _ & _ & _ & _ & _ & e7)).
  rewrite e7. clear H e7.
  destruct e; try congruence; cbn in Hd;
    unfold cameraResolves, cameraRejects, verificationResolves, verificationThrows in Hd;
    repeat inv_some; try reflexivity.
  - destruct (flipCamera_core w) as (_ & _ & _ & _ & _ & _ & e7). exact e7.
  - unfold captureImage. destruct (videoRef w); [|reflexivity].
    destruct context; [|reflexivity].
    match goal with
    | |- context [stopCamera ?x] =>
        destruct (stopCamera_core x) as (_ & _ & _ & _ & _ & _ & e7); rewrite e7
    end.
    destruct (step (react w)); reflexivity.
Qed.

Lemma run_keeps_log es :
  forall w w', ~ In ClickConfirm es -> run w es = Some w' ->
               verificationLog w' = verificationLog w.
Proof.
  induction es as [|e es IH]; cbn; intros w w' Hn H.
  - inversion H; reflexivity.
  - destruct (handle w e) as [w1|] eqn:He; [|discriminate].
    rewrite (IH w1 w') by tauto.
    apply (handle_keeps_log _ _ _ He). intros ->. apply Hn. left. reflexivity.
Qed.

(** When the call resolves with a text that parses to an object with
    the boolean [isMatch] and the string [reasoning], the workflow goes
    from [processing] to [result], the stored outcome is the parsed
    response, and the result screen shows that boolean and, when no
    error message is set (as is the case right after Confirm), that
    reasoning. *)
Theorem success_stores_response
    (w : World) (text : option string) (data : JsValue)
    (isMatch : bool) (reasoning : string) :
  reachable w ->
  step (react w) = Processing ->
  JSON_parse (textOrEmptyObject text) = Some data ->
  get_prop data "isMatch" = JBool isMatch ->
  get_prop data "reasoning" = JStr reasoning ->
  exists w', handle w (VerificationResolves text) = Some w'
    /\ step (react w') = Result
    /\ result (react w') = data
    /\ opt_chain (result (react w')) "isMatch" = JBool isMatch
    /\ opt_chain (result (react w')) "reasoning" = JStr reasoning
    /\ shownMatch (react w') = isMatch
    /\ error (react w') = error (react w)
    /\ (error (react w) = None ->
        shownText (react w') = JStr reasoning
        /\ shownHeading (react w')
           = (if isMatch then HeadingPassed else HeadingFailed))
    /\ (forall w0, step (react w0) = ReviewSelfie ->
                   handle w0 ClickConfirm = Some w -> error (react w) = None)
    /\ verification w' = None
    /\ verificationLog w' = verificationLog w.
Proof.
  intros Hw Hs Hp Hm Hr.
  destruct (processing_has_call w Hw Hs) as (args & Hv).
  set (w1 := onReact (setStep Result) (onReact (setResult data) (settle w))).
  assert (Hh : handle w (VerificationResolves text) = Some (commit (step (react w)) w1)).
  { unfold handle, dispatch, verificationResolves. rewrite Hv, Hp. reflexivity. }
  exists (commit (step (react w)) w1). split; [assumption|].
  destruct (commit_core (step (react w)) w1) as (e1 & _ & _ & e4 & e5 & e6 & e7).
  unfold shownText, shownHeading, shownMatch. rewrite e1, e4, e5, e6, e7. cbn.
  assert (Ho : forall k v, get_prop data k = v -> v <> JUndefined -> opt_chain data k = v).
  { intros k v Hk Hn. destruct data; cbn in *; congruence. }
  rewrite (Ho _ _ Hm) by discriminate. rewrite (Ho _ _ Hr) by discriminate.
  split; [reflexivity|]. split; [reflexivity|]. split; [reflexivity|].
  split; [reflexivity|]. split; [reflexivity|]. split; [reflexivity|].
  split; [intros He; rewrite He; split; reflexivity|].
  split; [|split; reflexivity].
  intros w0 H0 Hc. eapply confirm_clears_error; eassumption.
Qed.

(** C6: when the call fails (something in the [try] block throws, or the
    response text does not parse), the workflow goes from [processing] to
    [result], the fixed verification message is stored as the error, no
    outcome is stored, nothing is left waiting and no call is issued:
    the log of calls stays as it is until the user confirms again. *)
Theorem C6_failure_ends_in_result (w : World) (e : Event) :
  reachable w ->
  step (react w) = Processing ->
  (e = VerificationThrows
   \/ exists text, e = VerificationResolves text
                   /\ JSON_parse (textOrEmptyObject text) = None) ->
  exists w', handle w e = Some w'
    /\ step (react w') = Result
    /\ error (react w') = Some verificationErrorMessage
    /\ result (react w') = JNull
    /\ shownHeading (react w') = HeadingError
    /\ shownText (react w') = JStr verificationErrorMessage
    /\ verification w' = None
    /\ verificationLog w' = verificationLog w
    /\ forall es w'', ~ In ClickConfirm es -> run w' es = Some w'' ->
                      verificationLog w'' = verificationLog w.
Proof.
  intros Hw Hs He.
  destruct (processing_has_call w Hw Hs) as (args & Hv).
  pose proof (reachable_Inv w Hw) as [_ _ _ _ i5 _ _].
  assert (Hr : result (react w) = JNull).
  { destruct (result (react w)) eqn:Hr; try reflexivity;
      assert (Hx : step (react w) = Result) by (apply i5; discriminate); congruence. }
  assert (Hh : handle w e = Some (commit (step (react w)) (verificationCatch w))).
  { unfold handle, dispatch.
    destruct He as [->|(text & -> & Hp)];
      unfold verificationThrows, verificationResolves; rewrite Hv, ?Hp; reflexivity. }
  exists (commit (step (react w)) (verificationCatch w)).
  split; [assumption|].
  destruct (commit_core (step (react w)) (verificationCatch w))
    as (e1 & _ & _ & e4 & e5 & e6 & e7).
  unfold shownText, shownHeading. rewrite e1, e4, e5, e6, e7. cbn.
  repeat split; try assumption.
  intros es w'' Hn Hrun. rewrite (run_keeps_log es _ _ Hn Hrun). exact e7.
Qed.

(** When the call resolves with an absent or empty text, the text
    [{}] is parsed instead: the workflow reaches [result] with the empty
    object as outcome ([isMatch], [confidence] and [reasoning] all
    undefined), the error is left as it was, which is never the
    verification message and is null right after Confirm. *)
Theorem empty_text_is_empty_object (w : World) (text : option string) :
  JSON_parse "{}" = Some (JObj []) ->
  reachable w ->
  step (react w) = Processing ->
  text = None \/ text = Some EmptyString ->
  exists w', handle w (VerificationResolves text) = Some w'
    /\ step (react w') = Result
    /\ result (react w') = JObj []
    /\ opt_chain (result (react w')) "isMatch" = JUndefined
    /\ opt_chain (result (react w')) "confidence" = JUndefined
    /\ opt_chain (result (react w')) "reasoning" = JUndefined
    /\ shownMatch (react w') = false
    /\ error (react w') = error (react w)
    /\ error (react w') <> Some verificationErrorMessage
    /\ (forall w0, step (react w0) = ReviewSelfie ->
                   handle w0 ClickConfirm = Some w -> error (react w') = None).
Proof.
  intros Hj Hw Hs Ht.
  destruct (processing_has_call w Hw Hs) as (args & Hv).
  pose proof (reachable_Inv w Hw) as [_ _ _ _ _ _ i7].
  assert (Hp : JSON_parse (textOrEmptyObject text) = Some (JObj []))
    by (destruct Ht as [->| ->]; exact Hj).
  set (w1 := onReact (setStep Result) (onReact (setResult (JObj [])) (settle w))).
  assert (Hh : handle w (VerificationResolves text) = Some (commit (step (react w)) w1)).
  { unfold handle, dispatch, verificationResolves. rewrite Hv, Hp. reflexivity. }
  exists (commit (step (react w)) w1). split; [assumption|].
  destruct (commit_core (step (react w)) w1) as (e1 & _ & _ & e4 & e5 & _).
  unfold shownMatch. rewrite e1, e4, e5. cbn.
  split; [reflexivity|]. split; [reflexivity|]. split; [reflexivity|].
  split; [reflexivity|]. split; [reflexivity|]. split; [reflexivity|].
  split; [reflexivity|]. split.
  - destruct (i7 Hs) as [He|He]; rewrite He; discriminate.
  - intros w0 H0 Hc. eapply confirm_clears_error; eassumption.
Qed.


(** *** Capture *)

Lemma stopTracks_inactive s : active (stopTracks s) = false.
Proof. induction s as [|t s IH]; cbn; [reflexivity | exact IH]. Qed.

Lemma no_active_no_open (l : list MediaStream) :
  (forall j s, l !! j = Some s -> active s = false) ->
  filter (fun s => active s = true) l = [].
Proof.
  induction l as [|s l IH]; intros H; [reflexivity|].
  rewrite filter_cons. pose proof (H 0%nat s eq_refl) as Hs.
  destruct (decide (active s = true)) as [Ha|_]; [congruence|].
  apply IH. intros j s' Hj. apply (H (S j) s'). exact Hj.
Qed.

Lemma prepare_size facing v :
  width (prepare facing v) = videoWidth v /\ height (prepare facing v) = videoHeight v.
Proof. destruct facing; split; reflexivity. Qed.

Lemma prepare_transform facing v :
  transform (prepare facing v)
  = match facing with user => mirror (videoWidth v) | environment => identity end.
Proof.
  destruct facing; cbn; [|reflexivity].
  unfold translate, scale, mirror. cbn. f_equal; lia.
Qed.

Lemma paint_pixels facing v X Y :
  0 <= X < Z.of_N (videoWidth v) ->
  0 <= Y < Z.of_N (videoHeight v) ->
  bitmap (paint facing v) X Y
  = Some (pixelAt v (match facing with
                     | user => Z.of_N (videoWidth v) - 1 - X
                     | environment => X
                     end) Y).
Proof.
  intros HX HY. unfold paint, withTransform, drawImage. cbn [bitmap].
  destruct (prepare_size facing v) as [-> ->]. rewrite prepare_transform.
  assert (Hb : negb (0 <=? X) || negb (X <? Z.of_N (videoWidth v))
               || negb (0 <=? Y) || negb (Y <? Z.of_N (videoHeight v)) = false).
  { destruct (Z.leb_spec 0 X), (Z.ltb_spec X (Z.of_N (videoWidth v))),
      (Z.leb_spec 0 Y), (Z.ltb_spec Y (Z.of_N (videoHeight v))); cbn; try reflexivity; lia. }
  rewrite Hb. clear Hb.
  destruct facing; cbn [ma mb mc md me mf mirror identity].
  - replace (-1 * 1 - 0 * 0 =? 0) with false by reflexivity.
    replace ((1 * (2 * X + 1 - 2 * Z.of_N (videoWidth v)) - 0 * (2 * Y + 1 - 2 * 0))
             / (2 * (-1 * 1 - 0 * 0)))
      with (Z.of_N (videoWidth v) - 1 - X)
      by (apply Z.div_unique with (r := -1); lia).
    replace ((-1 * (2 * Y + 1 - 2 * 0) - 0 * (2 * X + 1 - 2 * Z.of_N (videoWidth v)))
             / (2 * (-1 * 1 - 0 * 0)))
      with Y
      by (apply Z.div_unique with (r := -1); lia).
    destruct (Z.leb_spec 0 (Z.of_N (videoWidth v) - 1 - X)),
      (Z.ltb_spec (Z.of_N (videoWidth v) - 1 - X) (Z.of_N (videoWidth v))),
      (Z.leb_spec 0 Y), (Z.ltb_spec Y (Z.of_N (videoHeight v))); cbn; try reflexivity; lia.
  - replace (1 * 1 - 0 * 0 =? 0) with false by reflexivity.
    replace ((1 * (2 * X + 1 - 2 * 0) - 0 * (2 * Y + 1 - 2 * 0)) / (2 * (1 * 1 - 0 * 0)))
      with X
      by (apply Z.div_unique with (r := 1); lia).
    replace ((1 * (2 * Y + 1 - 2 * 0) - 0 * (2 * X + 1 - 2 * 0)) / (2 * (1 * 1 - 0 * 0)))
      with Y
      by (apply Z.div_unique with (r := 1); lia).
    destruct (Z.leb_spec 0 X), (Z.ltb_spec X (Z.of_N (videoWidth v))),
      (Z.leb_spec 0 Y), (Z.ltb_spec Y (Z.of_N (videoHeight v))); cbn; try reflexivity; lia.
Qed.

Lemma toDataURL_jpeg q c :
  (0 < width c)%N -> (0 < height c)%N ->
  toDataURL q c = String.append "data:image/jpeg;base64," (encodeJPEG q c).
Proof.
  intros Hw Hh. unfold toDataURL.
  destruct (N.eqb_spec (width c) 0); [lia|]. destruct (N.eqb_spec (height c) 0); [lia|].
  reflexivity.
Qed.

(** C7: pressing the shutter while a stream is attached to the <video>
    stores, as the image of the current capture step, the data URL of a
    canvas painted under the horizontal flip exactly when the facing
    mode is [user] (pixel [X] of a row then shows pixel [W - 1 - X] of
    the frame; otherwise the frame as it is); for a frame with pixels
    the URL is a JPEG at a quality below 1, for a frame without pixels
    it is the text [data:,]; afterwards no <video> holds a stream, every
    track of the attached stream is stopped, and if that was the only
    open stream no stream is open any more. *)
Theorem C7_capture_mirrors_encodes_releases (w : World) (v : VideoFrame) (id : nat) :
  rendersVideo (step (react w)) = true ->
  videoRef w = Some (Some id) ->
  exists w', handle w (ClickShutter true v) = Some w'
    /\ (match step (react w) with
        | CaptureId => idImage (react w')
        | _ => selfieImage (react w')
        end) = Some (toDataURL (jpegQuality build) (paint (facingMode (react w)) v))
    /\ (transform (prepare (facingMode (react w)) v) = mirror (videoWidth v)
        <-> facingMode (react w) = user)
    /\ (facingMode (react w) <> user ->
        transform (prepare (facingMode (react w)) v) = identity)
    /\ (forall X Y,
           0 <= X < Z.of_N (videoWidth v) -> 0 <= Y < Z.of_N (videoHeight v) ->
           bitmap (paint (facingMode (react w)) v) X Y
           = Some (pixelAt v (match facingMode (react w) with
                              | user => Z.of_N (videoWidth v) - 1 - X
                              | environment => X
                              end) Y))
    /\ ((0 < videoWidth v)%N -> (0 < videoHeight v)%N ->
        toDataURL (jpegQuality build) (paint (facingMode (react w)) v)
        = String.append "data:image/jpeg;base64,"
            (encodeJPEG (jpegQuality build) (paint (facingMode (react w)) v)))
    /\ (videoWidth v = 0%N \/ videoHeight v = 0%N ->
        toDataURL (jpegQuality build) (paint (facingMode (react w)) v) = "data:,")
    /\ 0 < jpegQuality build < 100
    /\ boundStream w' = None
    /\ videoRef w' = None
    /\ streams w' = alter stopTracks id (streams w)
    /\ (forall s, streams w' !! id = Some s -> active s = false)
    /\ ((forall j s, streams w !! j = Some s -> j <> id -> active s = false) ->
        openStreams w' = []).
Proof.
  intros Hs Hv.
  destruct w as [[s0 im sf r0 er fm hm] vr st cr ver vl en]. cbn in Hs, Hv. subst vr.
  assert (Hstop : forall s, alter stopTracks id st !! id = Some s -> active s = false).
  { intros s. rewrite list_lookup_alter_eq. destruct (st !! id); cbn; [|discriminate].
    intros H; inversion H; apply stopTracks_inactive. }
  assert (Hopen : (forall j s, st !! j = Some s -> j <> id -> active s = false) ->
                  filter (fun s => active s = true) (alter stopTracks id st) = []).
  { intros Hothers. apply no_active_no_open. intros j s Hj.
    destruct (decide (j = id)) as [->|Hne]; [apply Hstop; assumption|].
    rewrite list_lookup_alter_ne in Hj by congruence. eapply Hothers; eassumption. }
  assert (Hq : 0 < jpegQuality build < 100) by (destruct build; cbn; lia).
  assert (Hm : transform (prepare fm v) = mirror (videoWidth v) <-> fm = user).
  { rewrite prepare_transform. destruct fm; split; try reflexivity; discriminate. }
  assert (Hi : fm <> user -> transform (prepare fm v) = identity).
  { rewrite prepare_transform. destruct fm; [congruence | reflexivity]. }
  pose proof (paint_pixels fm v) as Hp.
  assert (Hj : (0 < videoWidth v)%N -> (0 < videoHeight v)%N ->
               toDataURL (jpegQuality build) (paint fm v)
               = String.append "data:image/jpeg;base64,"
                   (encodeJPEG (jpegQuality build) (paint fm v))).
  { intros H1 H2. apply toDataURL_jpeg; unfold paint, withTransform, drawImage; cbn [width height];
      destruct (prepare_size fm v) as [Hw1 Hh1]; rewrite ?Hw1, ?Hh1; assumption. }
  assert (Hz : videoWidth v = 0%N \/ videoHeight v = 0%N ->
               toDataURL (jpegQuality build) (paint fm v) = "data:,").
  { intros H0. unfold toDataURL, paint, withTransform, drawImage. cbn [width height].
    destruct (prepare_size fm v) as [-> ->].
    destruct H0 as [-> | ->]; [reflexivity | rewrite orb_true_r; reflexivity]. }
  unfold handle, dispatch. cbn [react step]. rewrite Hs.
  eexists. split; [reflexivity|].
  destruct s0; try discriminate Hs; unfold captureImage, commit, openStreams, boundStream;
    cbn -[paint toDataURL prepare]; destruct refTiming; cbn -[paint toDataURL prepare];
    repeat (split; [first [reflexivity | assumption]|]); assumption.
Qed.

(** *** Camera streams *)

(** [startCamera] stops and detaches the attached stream before it asks
    for a new one. *)
Lemma startCamera_releases_first m w :
  boundStream (startCamera m w) = None
  /\ (forall id s, boundStream w = Some id ->
                   streams (startCamera m w) !! id = Some s -> active s = false)
  /\ exists c, cameraRequests (startCamera m w) = cameraRequests w ++ [AwaitPrimary c].
Proof.
  unfold startCamera, stopCamera, boundStream.
  destruct (videoRef w) as [[id|]|] eqn:Hv; cbn; rewrite ?Hv; (split; [reflexivity|]);
    (split; [|eexists; reflexivity]); intros id' s H; inversion H; subst.
  rewrite list_lookup_alter_eq. destruct (streams w !! id'); cbn; [|discriminate].
  intros H'; inversion H'; apply stopTracks_inactive.
Qed.

(** *** Further results: the camera *)

Lemma commit_noop old w : step (react w) = old -> commit old w = w.
Proof. intros <-. apply commit_same_step. Qed.

(** [stopCamera] is idempotent: a second call changes nothing, a call
    with no stream attached changes nothing, and a call never adds or
    removes a stream. *)
Theorem stopCamera_idempotent (w : World) :
  stopCamera (stopCamera w) = stopCamera w
  /\ boundStream (stopCamera w) = None
  /\ (boundStream w = None -> stopCamera w = w)
  /\ length (streams (stopCamera w)) = length (streams w)
  /\ cameraRequests (stopCamera w) = cameraRequests w.
Proof.
  unfold stopCamera, boundStream.
  destruct (videoRef w) as [[id|]|] eqn:Hv; cbn; rewrite ?Hv;
    repeat split; try discriminate; try reflexivity.
  apply length_alter.
Qed.

(** The flip button toggles the facing mode, stops and detaches the
    attached stream, and asks once for the camera of the new facing mode;
    step and images stay as they are, and a second flip brings the facing
    mode back. *)
Theorem flip_toggles_and_releases (w : World) :
  flipOffered (react w) = true ->
  exists w', handle w ClickFlip = Some w'
    /\ facingMode (react w') = toggled (facingMode (react w))
    /\ step (react w') = step (react w)
    /\ idImage (react w') = idImage (react w)
    /\ selfieImage (react w') = selfieImage (react w)
    /\ boundStream w' = None
    /\ (forall id s, boundStream w = Some id -> streams w' !! id = Some s -> active s = false)
    /\ length (streams w') = length (streams w)
    /\ cameraRequests w'
       = cameraRequests w
           ++ [AwaitPrimary (Ideal (toggled (facingMode (react w)))
                                   (idealWidth build) (idealHeight build))]
    /\ exists w'', handle w' ClickFlip = Some w''
         /\ facingMode (react w'') = facingMode (react w).
Proof.
  intros Hf.
  assert (Hh : forall x, flipOffered (react x) = true ->
                         handle x ClickFlip = Some (flipCamera x)).
  { intros x Hx. unfold handle, dispatch. rewrite Hx. f_equal. apply commit_noop.
    destruct (flipCamera_core x) as (e1 & _). exact e1. }
  exists (flipCamera w). split; [apply Hh; assumption|].
  assert (Hf' : flipOffered (react (flipCamera w)) = true).
  { unfold flipOffered in *. unfold flipCamera, startCamera. cbn.
    rewrite stopCamera_react. cbn. exact Hf. }
  destruct w as [[s0 im sf r0 er fm hm] vr st cr ver vl en].
  unfold flipCamera, startCamera, stopCamera, boundStream, toggled. cbn.
  destruct vr as [[id|]|]; cbn; repeat (split; [try reflexivity|]).
  all: try (intros id' s H; inversion H; subst; rewrite list_lookup_alter_eq;
            destruct (st !! id'); cbn; [|discriminate];
            intros H'; inversion H'; apply stopTracks_inactive).
  all: try (intros id' s H; discriminate H).
  all: try apply length_alter.
  all: match goal with
       | |- exists w'', handle ?x ClickFlip = Some w'' /\ _ =>
           exists (flipCamera x); split; [apply Hh; exact Hf'|];
           cbn; destruct fm; reflexivity
       end.
Qed.

(** Without a 2D context, or without a mounted <video>, the shutter does
    nothing at all: no image is stored, the step stays and the camera is
    not released. *)
Theorem shutter_without_context_does_nothing (w : World) (context : bool) (v : VideoFrame) :
  rendersVideo (step (react w)) = true ->
  context = false \/ videoRef w = None ->
  handle w (ClickShutter context v) = Some w.
Proof.
  intros Hr Hc. unfold handle, dispatch. rewrite Hr. f_equal.
  assert (Hk : captureImage context v w = w).
  { unfold captureImage. destruct Hc as [->| ->]; [destruct (videoRef w)|]; reflexivity. }
  rewrite Hk. apply commit_same_step.
Qed.

(** A rejected request with constraints is retried once with
    [{ video: true }], touching nothing else; only when the retry is
    rejected too is the camera message stored, and even then the step,
    the images, the <video> and the streams stay as they are.  If the
    retry is granted, its stream is attached and no error is stored. *)
Theorem camera_falls_back_once (w : World) (i : nat) (c : Constraints) :
  cameraRequests w !! i = Some (AwaitPrimary c) ->
  exists w1, handle w (CameraRejects i) = Some w1
    /\ react w1 = react w
    /\ videoRef w1 = videoRef w
    /\ streams w1 = streams w
    /\ cameraRequests w1 = <[i := AwaitFallback AnyVideo]> (cameraRequests w)
    /\ (exists w2, handle w1 (CameraRejects i) = Some w2
          /\ error (react w2) = Some cameraErrorMessage
          /\ step (react w2) = step (react w)
          /\ idImage (react w2) = idImage (react w)
          /\ selfieImage (react w2) = selfieImage (react w)
          /\ result (react w2) = result (react w)
          /\ videoRef w2 = videoRef w
          /\ streams w2 = streams w
          /\ length (cameraRequests w2) = pred (length (cameraRequests w)))
    /\ (forall tracks, exists w3, handle w1 (CameraResolves i tracks) = Some w3
          /\ react w3 = react w
          /\ streams w3 = streams w ++ [replicate tracks live]
          /\ (mounted w = true -> boundStream w3 = Some (length (streams w)))
          /\ (mounted w = false -> boundStream w3 = None)).
Proof.
  intros Hi.
  assert (Hlt : (i < length (cameraRequests w))%nat) by (eapply lookup_lt_Some; eassumption).
  set (w1 := mkWorld (react w) (videoRef w) (streams w)
                     (<[i := AwaitFallback AnyVideo]> (cameraRequests w))
                     (verification w) (verificationLog w) (enumerating w)).
  assert (H1 : handle w (CameraRejects i) = Some w1).
  { unfold handle, dispatch, cameraRejects. rewrite Hi. f_equal. apply commit_noop. reflexivity. }
  assert (Hi1 : cameraRequests w1 !! i = Some (AwaitFallback AnyVideo)).
  { cbn. apply list_lookup_insert_eq. assumption. }
  exists w1. repeat (split; [first [assumption | reflexivity]|]). split.
  - eexists. split.
    + unfold handle, dispatch, cameraRejects. rewrite Hi1.
      rewrite commit_noop by reflexivity. reflexivity.
    + cbn. repeat (split; [reflexivity|]).
      rewrite length_delete by (eexists; exact Hi1).
      rewrite length_insert. lia.
  - intros tracks. eexists. split.
    + unfold handle, dispatch, cameraResolves. rewrite Hi1.
      rewrite commit_noop by reflexivity. reflexivity.
    + cbn. unfold mounted, boundStream. cbn.
      destruct (videoRef w); repeat split; intros; try discriminate; reflexivity.
Qed.

(** Whatever leads into a capture step mounts a fresh <video> with no
    stream, sets the facing mode of the step (back camera for the ID,
    front camera for the selfie) and asks once for that camera at the
    ideal resolution. *)
Theorem entering_capture_starts_camera (w : World) (e : Event) (w' : World) :
  handle w e = Some w' ->
  step (react w') <> step (react w) ->
  rendersVideo (step (react w')) = true ->
  rendersVideo (step (react w)) = false
  /\ facingMode (react w')
     = (match step (react w') with CaptureId => environment | _ => user end)
  /\ videoRef w' = Some None
  /\ cameraRequests w'
     = cameraRequests w
         ++ [AwaitPrimary (Ideal (facingMode (react w'))
                                 (idealWidth build) (idealHeight build))].
Proof.
  unfold handle. intros H Hne Hr.
  destruct (dispatch w e) as [w1|] eqn:Hd; [|discriminate].
  inversion H; subst w'; clear H.
  destruct (commit_core (step (react w)) w1) as (e1 & _).
  rewrite e1 in Hne, Hr.
  assert (Hq : rendersVideo (step (react w)) = false
               /\ cameraRequests w1 = cameraRequests w).
  { clear e1. destruct w as [[s0 im sf r0 er fm hm] vr st cr ver vl en].
    destruct e; cbn in Hd;
      unfold cameraResolves, cameraRejects, verificationResolves, verificationThrows,
        captureImage, runVerification, flipCamera, startCamera in Hd;
      cbn in Hd; repeat inv_some;
      try (destruct vr as [[?|]|]; try destruct context);
      try destruct (negb (truthy_str im) || negb (truthy_str sf));
      rewrite ?stopCamera_react in *; cbn in *;
      try congruence; try discriminate; try (split; reflexivity).
    all: destruct s0; cbn in *; try discriminate; congruence. }
  destruct Hq as [Hold Hcr]. split; [assumption|].
  unfold commit.
  destruct (AppStep_eqb (step (react w)) (step (react w1))) eqn:Heq;
    [apply AppStep_eqb_eq in Heq; congruence|].
  rewrite <- Hcr. clear Hd Hcr e1 Hne Heq.
  destruct w1 as [[s1 im sf r0 er fm hm] vr st cr ver vl en]. cbn in Hr.
  unfold remount, stopCamera, stepEffect, startCamera. rewrite Hold. cbn.
  destruct s1; try discriminate Hr; cbn;
    destruct refTiming; cbn; destruct vr as [[?|]|]; cbn; repeat split.
Qed.

(** *** Further results: what holds in every reachable world *)

Lemma stopCamera_mounted w : mounted (stopCamera w) = mounted w.
Proof.
  unfold stopCamera, mounted.
  destruct (videoRef w) as [[?|]|] eqn:Hv; cbn; rewrite ?Hv; reflexivity.
Qed.

Lemma startCamera_mounted m w : mounted (startCamera m w) = mounted w.
Proof. unfold startCamera. unfold mounted at 1. cbn. apply stopCamera_mounted. Qed.

Lemma stepEffect_mounted w : mounted (stepEffect w) = mounted w.
Proof.
  unfold stepEffect. destruct (step (react w)); try reflexivity;
    rewrite startCamera_mounted; reflexivity.
Qed.

Lemma dispatch_mounted w e w1 : dispatch w e = Some w1 -> mounted w1 = mounted w.
Proof.
  intros Hd. destruct e; cbn in Hd;
    unfold cameraResolves, cameraRejects, verificationResolves, verificationThrows in Hd;
    repeat inv_some; try reflexivity.
  - unfold flipCamera. rewrite startCamera_mounted. reflexivity.
  - unfold captureImage. destruct (videoRef w) eqn:Hv; [|reflexivity].
    destruct context; [|reflexivity]. rewrite stopCamera_mounted.
    unfold mounted. destruct (step (react w)); cbn; rewrite Hv; reflexivity.
  - unfold runVerification.
    destruct (negb (truthy_str (idImage (react w)))
              || negb (truthy_str (selfieImage (react w)))); reflexivity.
  - unfold mounted. cbn. destruct (videoRef w); reflexivity.
Qed.

Lemma handle_mounted w e w' :
  handle w e = Some w' ->
  mounted w = rendersVideo (step (react w)) ->
  mounted w' = rendersVideo (step (react w')).
Proof.
  unfold handle. intros H Hm.
  destruct (dispatch w e) as [w1|] eqn:Hd; [|discriminate].
  inversion H; subst w'; clear H.
  pose proof (dispatch_mounted _ _ _ Hd) as Hm1.
  destruct (commit_core (step (react w)) w1) as (e1 & _). rewrite e1.
  unfold commit.
  destruct (AppStep_eqb (step (react w)) (step (react w1))) eqn:Heq.
  - apply AppStep_eqb_eq in Heq. congruence.
  - rewrite stepEffect_mounted.
    assert (Hr : forall x, mounted x = mounted w1 ->
                           mounted (remount (step (react w)) (step (react w1)) x)
                           = rendersVideo (step (react w1))).
    { intros x Hx. unfold remount, mounted at 1. cbn.
      destruct (rendersVideo (step (react w1))); [|reflexivity].
      destruct (rendersVideo (step (react w))); [|reflexivity].
      fold (mounted x). congruence. }
    destruct refTiming.
    + rewrite stopCamera_mounted. apply Hr. reflexivity.
    + apply Hr. apply stopCamera_mounted.
Qed.

(** The <video> is mounted exactly in the two capture steps, so outside
    them no stream is attached to it. *)
Theorem video_mounted_only_while_capturing (w : World) :
  reachable w ->
  mounted w = rendersVideo (step (react w))
  /\ (rendersVideo (step (react w)) = false -> boundStream w = None).
Proof.
  intros Hw.
  assert (Hm : mounted w = rendersVideo (step (react w))).
  { induction Hw as [|w e w' _ IH H]; [reflexivity | eapply handle_mounted; eassumption]. }
  split; [assumption|]. intros Hr. rewrite Hr in Hm.
  unfold mounted in Hm. unfold boundStream. destruct (videoRef w); [discriminate | reflexivity].
Qed.

Lemma dispatch_fixedMessage w e w1 :
  dispatch w e = Some w1 -> fixedMessage (error (react w)) -> fixedMessage (error (react w1)).
Proof.
  unfold fixedMessage. intros Hd He.
  destruct e; cbn in Hd;
    unfold cameraResolves, cameraRejects, verificationResolves, verificationThrows in Hd;
    repeat inv_some; try solve [cbn; auto].
  - destruct (flipCamera_core w) as (_ & _ & _ & _ & e5 & _). rewrite e5. assumption.
  - unfold captureImage. destruct (videoRef w); [|assumption].
    destruct context; [|assumption]. rewrite stopCamera_react.
    destruct (step (react w)); assumption.
  - unfold runVerification.
    destruct (negb (truthy_str (idImage (react w)))
              || negb (truthy_str (selfieImage (react w)))); cbn; auto.
Qed.

(** The error stored in the component is null or one of the two fixed
    messages; nothing that a failed call or a refused camera reports ever
    gets into it. *)
Theorem error_is_a_fixed_message (w : World) :
  reachable w -> fixedMessage (error (react w)).
Proof.
  induction 1 as [|w e w' _ IH H]; [left; reflexivity|].
  destruct (handle_dispatch _ _ _ H) as (w1 & Hd & (_ & _ & _ & _ & e5 & _)).
  rewrite e5. eapply dispatch_fixedMessage; eassumption.
Qed.

(** *** Further results: the flip button *)

Lemma stopCamera_flags w :
  hasMultipleCameras (react (stopCamera w)) = hasMultipleCameras (react w)
  /\ enumerating (stopCamera w) = enumerating w.
Proof. unfold stopCamera. destruct (videoRef w) as [[?|]|]; split; reflexivity. Qed.

Lemma startCamera_flags m w :
  hasMultipleCameras (react (startCamera m w)) = hasMultipleCameras (react w)
  /\ enumerating (startCamera m w) = enumerating w.
Proof. unfold startCamera. cbn. apply stopCamera_flags. Qed.

Lemma commit_flags old w :
  hasMultipleCameras (react (commit old w)) = hasMultipleCameras (react w)
  /\ enumerating (commit old w) = enumerating w.
Proof.
  unfold commit. destruct (AppStep_eqb old (step (react w))); [split; reflexivity|].
  assert (He : forall x,
             hasMultipleCameras (react (stepEffect x)) = hasMultipleCameras (react x)
             /\ enumerating (stepEffect x) = enumerating x).
  { intros x. unfold stepEffect. destruct (step (react x)); try (split; reflexivity);
      match goal with
      | |- context [startCamera ?m ?y] => destruct (startCamera_flags m y) as [-> ->]
      end; split; reflexivity. }
  destruct refTiming;
    match goal with
    | |- context [stepEffect ?x] => destruct (He x) as [-> ->]
    end.
  - match goal with
    | |- context [stopCamera ?y] => destruct (stopCamera_flags y) as [-> ->]
    end. split; reflexivity.
  - unfold remount; cbn. apply stopCamera_flags.
Qed.

Lemma handle_flags w e w' :
  handle w e = Some w' ->
  match e with
  | DevicesEnumerated n =>
      enumerating w = true /\ enumerating w' = false
      /\ hasMultipleCameras (react w') = (1 <? n)%nat
  | DevicesFailed =>
      enumerating w = true /\ enumerating w' = false
      /\ hasMultipleCameras (react w') = hasMultipleCameras (react w)
  | _ =>
      enumerating w' = enumerating w
      /\ hasMultipleCameras (react w') = hasMultipleCameras (react w)
  end.
Proof.
  unfold handle. intros H.
  destruct (dispatch w e) as [w1|] eqn:Hd; [|discriminate].
  inversion H; subst w'; clear H.
  destruct (commit_flags (step (react w)) w1) as [-> ->].
  destruct e; cbn in Hd;
    unfold cameraResolves, cameraRejects, verificationResolves, verificationThrows in Hd;
    repeat inv_some; try solve [cbn; auto].
  - unfold flipCamera.
    match goal with
    | |- context [startCamera ?m ?y] => destruct (startCamera_flags m y) as [-> ->]
    end. split; reflexivity.
  - unfold captureImage. destruct (videoRef w); [|split; reflexivity].
    destruct context; [|split; reflexivity].
    match goal with
    | |- context [stopCamera ?y] => destruct (stopCamera_flags y) as [-> ->]
    end. destruct (step (react w)); split; reflexivity.
  - unfold runVerification.
    destruct (negb (truthy_str (idImage (react w)))
              || negb (truthy_str (selfieImage (react w)))); split; reflexivity.
Qed.

Lemma run_after_enumeration es :
  forall w w', enumerating w = false -> run w es = Some w' ->
               hasMultipleCameras (react w') = hasMultipleCameras (react w)
               /\ enumerating w' = false
               /\ forall n, ~ In (DevicesEnumerated n) es.
Proof.
  induction es as [|e es IH]; cbn; intros w w' Hen H.
  - inversion H; subst. repeat split; auto.
  - destruct (handle w e) as [w1|] eqn:He; [|discriminate].
    pose proof (handle_flags _ _ _ He) as Hf.
    assert (Hk : enumerating w1 = false
                 /\ hasMultipleCameras (react w1) = hasMultipleCameras (react w)
                 /\ forall n, e <> DevicesEnumerated n).
    { destruct e; try (destruct Hf as [-> ->]; repeat split; [assumption | discriminate]);
        destruct Hf as (Ht & _); congruence. }
    destruct Hk as (Hen1 & Hh1 & Hne).
    destruct (IH w1 w' Hen1 H) as (Hh & Hen' & Hno).
    split; [congruence|]. split; [assumption|].
    intros n [Hx|Hx]; [apply (Hne n); assumption | apply (Hno n); assumption].
Qed.

(** The flip button is on the capture screen if and only if
    [enumerateDevices] has answered with more than one video input; if it
    failed, or has not answered yet, there is no flip button. *)
Theorem flip_offered_iff_several_cameras (es : list Event) (w : World) :
  run initial es = Some w ->
  (hasMultipleCameras (react w) = true
   <-> exists n, In (DevicesEnumerated n) es /\ (1 < n)%nat)
  /\ (flipOffered (react w) = true
      <-> rendersVideo (step (react w)) = true
          /\ exists n, In (DevicesEnumerated n) es /\ (1 < n)%nat).
Proof.
  intros Hrun.
  assert (Hmain : forall es w0 w,
             enumerating w0 = true -> hasMultipleCameras (react w0) = false ->
             run w0 es = Some w ->
             (hasMultipleCameras (react w) = true
              <-> exists n, In (DevicesEnumerated n) es /\ (1 < n)%nat)).
  { clear. induction es as [|e es IH]; cbn; intros w0 w Hen Hh H.
    - inversion H; subst. rewrite Hh. split; [discriminate | intros (n & [] & _)].
    - destruct (handle w0 e) as [w1|] eqn:He; [|discriminate].
      pose proof (handle_flags _ _ _ He) as Hf.
      destruct e;
        try (destruct Hf as [Hf1 Hf2];
             rewrite (IH w1 w) by congruence;
             split; intros (n & Hin & Hn); exists n;
             (split; [|assumption]); [right; assumption|];
             destruct Hin as [Hin|Hin]; [discriminate | assumption]).
      + destruct Hf as (_ & Hen1 & Hh1).
        destruct (run_after_enumeration es w1 w Hen1 H) as (Hh' & _ & Hno).
        rewrite Hh', Hh1. split.
        * intros Hlt. exists videoInputs. split; [left; reflexivity|].
          apply Nat.ltb_lt. assumption.
        * intros (n & [Hin|Hin] & Hn); [|exfalso; eapply Hno; eassumption].
          inversion Hin; subst. apply Nat.ltb_lt. assumption.
      + destruct Hf as (_ & Hen1 & Hh1).
        destruct (run_after_enumeration es w1 w Hen1 H) as (Hh' & _ & Hno).
        rewrite Hh', Hh1, Hh. split; [discriminate|].
        intros (n & [Hin|Hin] & _); [discriminate | exfalso; eapply Hno; eassumption]. }
  pose proof (Hmain es initial w eq_refl eq_refl Hrun) as Hm.
  split; [assumption|].
  unfold flipOffered. rewrite andb_true_iff, Hm. reflexivity.
Qed.

(** *** Further results: the image payloads *)

Lemma split_nonempty sep s : exists piece pieces, split sep s = piece :: pieces.
Proof.
  induction s as [|c s (piece & pieces & IH)]; cbn; [eauto|].
  destruct (Ascii.eqb c sep); [eauto|]. rewrite IH. eauto.
Qed.

Lemma split_noComma s : noComma s = true -> split "," s = [s].
Proof.
  induction s as [|c s IH]; cbn; [reflexivity|].
  intros H. apply andb_true_iff in H. destruct H as [Hc Hs].
  apply negb_true_iff in Hc. rewrite Hc, (IH Hs). reflexivity.
Qed.

Lemma base64Of_jpeg payload :
  base64Of (Some (String.append "data:image/jpeg;base64," payload))
  = head (split "," payload).
Proof.
  unfold base64Of. cbn.
  destruct (split_nonempty "," payload) as (piece & pieces & ->). reflexivity.
Qed.

Lemma base64Of_dataURL q c : exists payload, base64Of (Some (toDataURL q c)) = Some payload.
Proof.
  unfold toDataURL. destruct ((width c =? 0)%N || (height c =? 0)%N).
  - exists EmptyString. reflexivity.
  - rewrite base64Of_jpeg.
    destruct (split_nonempty "," (encodeJPEG q c)) as (piece & pieces & ->).
    exists piece. reflexivity.
Qed.

(** The payload [runVerification] cuts out of a captured image with
    [split(',')[1]] is what the JPEG encoder produced for the canvas,
    given that the canvas has pixels and the payload, being base64,
    holds no comma. *)
Theorem payload_is_the_encoder_output (q : Z) (c : Canvas) :
  (0 < width c)%N -> (0 < height c)%N ->
  noComma (encodeJPEG q c) = true ->
  base64Of (Some (toDataURL q c)) = Some (encodeJPEG q c).
Proof.
  intros Hw Hh Hn. rewrite toDataURL_jpeg by assumption.
  rewrite base64Of_jpeg, (split_noComma _ Hn). reflexivity.
Qed.

(** A frame without pixels (the camera has not delivered yet) is captured
    as the text [data:,]: it counts as a present image for the guard of
    [runVerification], and its payload is the empty string. *)
Theorem blank_frame_is_captured (facing : FacingMode) (v : VideoFrame) (q : Z) :
  videoWidth v = 0%N \/ videoHeight v = 0%N ->
  toDataURL q (paint facing v) = "data:,"
  /\ truthy_str (Some (toDataURL q (paint facing v))) = true
  /\ base64Of (Some (toDataURL q (paint facing v))) = Some EmptyString.
Proof.
  intros Hz.
  assert (Hu : toDataURL q (paint facing v) = "data:,").
  { unfold toDataURL, paint, withTransform, drawImage. cbn [width height].
    destruct (prepare_size facing v) as [-> ->].
    destruct Hz as [-> | ->]; [reflexivity | rewrite orb_true_r; reflexivity]. }
  rewrite Hu. repeat split.
Qed.

Lemma dispatch_isDataURL w e w1 :
  dispatch w e = Some w1 ->
  isDataURL (idImage (react w)) /\ isDataURL (selfieImage (react w)) ->
  isDataURL (idImage (react w1)) /\ isDataURL (selfieImage (react w1)).
Proof.
  intros Hd [Hi Hf].
  destruct e; cbn in Hd;
    unfold cameraResolves, cameraRejects, verificationResolves, verificationThrows in Hd;
    repeat inv_some; try solve [cbn; auto]; try solve [cbn; split; left; reflexivity].
  - destruct (flipCamera_core w) as (_ & e2 & e3 & _). rewrite e2, e3. auto.
  - unfold captureImage. destruct (videoRef w); [|auto].
    destruct context; [|auto]. rewrite stopCamera_react.
    destruct (step (react w)); cbn; split; auto; right; eauto.
  - unfold runVerification.
    destruct (negb (truthy_str (idImage (react w)))
              || negb (truthy_str (selfieImage (react w)))); cbn; auto.
Qed.

Lemma reachable_isDataURL w :
  reachable w -> isDataURL (idImage (react w)) /\ isDataURL (selfieImage (react w)).
Proof.
  induction 1 as [|w e w' _ IH H]; [split; left; reflexivity|].
  destruct (handle_dispatch _ _ _ H) as (w1 & Hd & (_ & e2 & e3 & _)).
  rewrite e2, e3. eapply dispatch_isDataURL; eassumption.
Qed.

Lemma present_dataURL_has_payload o :
  isDataURL o -> truthy_str o = true -> base64Of o <> None.
Proof.
  intros [->|(q & c & ->)] Ht; [discriminate Ht|].
  destruct (base64Of_dataURL q c) as (payload & ->). discriminate.
Qed.

(** Every verification call that is issued carries a payload for the ID
    and a payload for the selfie: [split(',')[1]] is never [undefined] on
    an image the component has stored. *)
Theorem calls_carry_both_payloads (w : World) :
  reachable w ->
  (forall args, In args (verificationLog w) -> fst args <> None /\ snd args <> None)
  /\ (forall args, verification w = Some args -> fst args <> None /\ snd args <> None).
Proof.
  induction 1 as [|w e w' Hw IH H].
  - split; [intros args [] | discriminate].
  - destruct (handle_dispatch _ _ _ H) as (w1 & Hd & (_ & _ & _ & _ & _ & e6 & e7)).
    rewrite e6, e7. clear H e6 e7. destruct IH as [IHl IHv].
    destruct (reachable_isDataURL w Hw) as [Hi Hf].
    destruct e; cbn in Hd;
      unfold cameraResolves, cameraRejects, verificationResolves, verificationThrows in Hd;
      repeat inv_some; try solve [cbn; auto]; try solve [cbn; split; [auto | discriminate]].
    + destruct (flipCamera_core w) as (_ & _ & _ & _ & _ & e6 & e7). rewrite e6, e7. auto.
    + unfold captureImage. destruct (videoRef w); [|auto].
      destruct context; [|auto].
      match goal with
      | |- context [stopCamera ?x] =>
          destruct (stopCamera_core x) as (_ & _ & _ & _ & _ & e6 & e7); rewrite e6, e7
      end.
      destruct (step (react w)); cbn; auto.
    + unfold runVerification.
      destruct (negb (truthy_str (idImage (react w)))
                || negb (truthy_str (selfieImage (react w)))) eqn:Hg; [auto|].
      apply orb_false_elim in Hg. destruct Hg as [Hg1 Hg2].
      apply negb_false_iff in Hg1, Hg2. cbn.
      assert (Hnew : base64Of (idImage (react w)) <> None
                     /\ base64Of (selfieImage (react w)) <> None)
        by (split; apply present_dataURL_has_payload; assumption).
      split.
      * intros args Hin. apply in_app_or in Hin. destruct Hin as [Hin|[<-|[]]]; auto.
      * intros args Ha. inversion Ha; subst. exact Hnew.
Qed.

(** *** Further results: the steps of the wizard *)

(** A step changes only along the arrows of the wizard: forward by one
    step, back from a review to its capture, from [processing] to
    [result], and to [welcome] by Cancel or New Verification. *)
Theorem steps_follow_the_wizard (w : World) (e : Event) (w' : World) :
  reachable w ->
  handle w e = Some w' ->
  step (react w') = step (react w) \/ nextStep (step (react w)) (step (react w')) = true.
Proof.
  intros Hw H. pose proof (reachable_Inv w Hw) as [_ _ _ _ _ i6 _].
  destruct (handle_dispatch _ _ _ H) as (w1 & Hd & (e1 & _)).
  rewrite e1. clear H e1 Hw.
  destruct e; cbn in Hd;
    unfold cameraResolves, cameraRejects, verificationResolves, verificationThrows in Hd;
    repeat inv_some; try solve [cbn; auto].
  - right. cbn. destruct (step (react w)); try discriminate; reflexivity.
  - left. destruct (flipCamera_core w) as (e1 & _). exact e1.
  - unfold captureImage. destruct (videoRef w); [|auto].
    destruct context; [|auto]. rewrite stopCamera_react.
    destruct (step (react w)); try discriminate; cbn; auto.
  - unfold runVerification.
    destruct (negb (truthy_str (idImage (react w)))
              || negb (truthy_str (selfieImage (react w)))); cbn; auto.
  - right. cbn. assert (Hp : step (react w) = Processing) by (apply i6; congruence).
    rewrite Hp. reflexivity.
  - right. cbn. assert (Hp : step (react w) = Processing) by (apply i6; congruence).
    rewrite Hp. reflexivity.
  - right. cbn. assert (Hp : step (react w) = Processing) by (apply i6; congruence).
    rewrite Hp. reflexivity.
Qed.

(** While the call is in flight no button is on the page; the step is
    left only when the call comes back, and then for [result]. *)
Theorem processing_waits_for_the_call (w : World) :
  reachable w ->
  step (react w) = Processing ->
  (forall e, isClick e = true -> handle w e = None)
  /\ (forall e w', handle w e = Some w' ->
        step (react w') = Processing
        \/ (step (react w') = Result
            /\ (e = VerificationThrows \/ exists text, e = VerificationResolves text))).
Proof.
  intros Hw Hs. split.
  - intros e He. unfold handle.
    assert (Hd : dispatch w e = None).
    { destruct e; try discriminate He; cbn; unfold flipOffered; rewrite Hs; reflexivity. }
    rewrite Hd. reflexivity.
  - intros e w' H.
    destruct (handle_dispatch _ _ _ H) as (w1 & Hd & (e1 & _)).
    rewrite e1. clear H e1.
    destruct e; cbn in Hd; unfold flipOffered in Hd; rewrite ?Hs in Hd; cbn in Hd;
      unfold cameraResolves, cameraRejects, verificationResolves, verificationThrows in Hd;
      repeat inv_some; cbn; eauto.
Qed.

(** A verification call is issued only by Continue on [review_selfie]
    with both images present, one call at a time, and never while another
    call is in flight. *)
Theorem calls_never_overlap (w : World) (e : Event) (w' : World) :
  reachable w ->
  handle w e = Some w' ->
  verificationLog w' <> verificationLog w ->
  e = ClickConfirm
  /\ step (react w) = ReviewSelfie
  /\ verification w = None
  /\ truthy_str (idImage (react w)) = true
  /\ truthy_str (selfieImage (react w)) = true
  /\ step (react w') = Processing
  /\ verificationLog w'
     = verificationLog w ++ [(base64Of (idImage (react w)), base64Of (selfieImage (react w)))]
  /\ verification w'
     = Some (base64Of (idImage (react w)), base64Of (selfieImage (react w))).
Proof.
  intros Hw H Hl. pose proof (reachable_Inv w Hw) as [_ _ _ _ _ i6 _].
  assert (He : e = ClickConfirm).
  { destruct e; try reflexivity; exfalso; apply Hl;
      apply (handle_keeps_log _ _ _ H); discriminate. }
  subst e. split; [reflexivity|].
  destruct (handle_dispatch _ _ _ H) as (w1 & Hd & (e1 & _ & _ & _ & _ & e6 & e7)).
  rewrite e1, e6, e7. rewrite e7 in Hl. clear H e1 e6 e7.
  cbn in Hd. destruct (step (react w)) eqn:Hs; try discriminate Hd;
    inversion Hd; subst w1; clear Hd; [exfalso; apply Hl; reflexivity|].
  split; [reflexivity|].
  assert (Hv : verification w = None).
  { destruct (verification w) eqn:Hv; [|reflexivity].
    assert (Hp : ReviewSelfie = Processing) by (apply i6; discriminate). discriminate Hp. }
  split; [assumption|].
  unfold runVerification in *.
  destruct (truthy_str (idImage (react w))); destruct (truthy_str (selfieImage (react w)));
    cbn in *; try (exfalso; apply Hl; reflexivity).
  repeat split.
Qed.

(** The ID image changes only when the shutter stores a capture in
    [capture_id] or when Cancel or New Verification clears it; the selfie
    only by the shutter in [capture_selfie] or the same two buttons.  No
    other handler touches an image. *)
Theorem images_change_only_by_shutter_or_reset (w : World) (e : Event) (w' : World) :
  handle w e = Some w' ->
  (idImage (react w') <> idImage (react w) ->
   (exists v, e = ClickShutter true v /\ step (react w) = CaptureId
              /\ step (react w') = ReviewId)
   \/ ((e = ClickCancel \/ e = ClickNewVerification) /\ idImage (react w') = None))
  /\ (selfieImage (react w') <> selfieImage (react w) ->
      (exists v, e = ClickShutter true v /\ step (react w) = CaptureSelfie
                 /\ step (react w') = ReviewSelfie)
      \/ ((e = ClickCancel \/ e = ClickNewVerification) /\ selfieImage (react w') = None)).
Proof.
  intros H.
  destruct (handle_dispatch _ _ _ H) as (w1 & Hd & (e1 & e2 & e3 & _)).
  rewrite e1, e2, e3. clear H e1 e2 e3.
  destruct e; cbn in Hd;
    unfold cameraResolves, cameraRejects, verificationResolves, verificationThrows in Hd;
    repeat inv_some; try solve [cbn; split; intros Hx; congruence];
    try solve [cbn; split; intros _; right; split; auto].
  - destruct (flipCamera_core w) as (_ & e2 & e3 & _). rewrite e2, e3.
    split; intros Hx; congruence.
  - unfold captureImage. destruct (videoRef w); [|split; intros Hx; congruence].
    destruct context; [|split; intros Hx; congruence].
    rewrite stopCamera_react.
    destruct (step (react w)) eqn:Hs; try discriminate; cbn;
      split; intros Hx; try congruence; left; eexists; repeat split.
  - unfold runVerification.
    destruct (negb (truthy_str (idImage (react w)))
              || negb (truthy_str (selfieImage (react w)))); cbn;
      split; intros Hx; congruence.
Qed.

(** *** Further results: the life of a stream *)

Lemma onlyStops_refl l : onlyStops l l.
Proof. split; [reflexivity|]. intros id s H. exists s. auto. Qed.

Lemma onlyStops_trans l1 l2 l3 : onlyStops l1 l2 -> onlyStops l2 l3 -> onlyStops l1 l3.
Proof.
  intros [L1 H1] [L2 H2]. split; [congruence|].
  intros id s Hs. destruct (H1 id s Hs) as (s2 & Hs2 & Hl2 & Ha2).
  destruct (H2 id s2 Hs2) as (s3 & Hs3 & Hl3 & Ha3).
  exists s3. repeat split; [assumption | congruence | auto].
Qed.

Lemma onlyStops_alter id l : onlyStops l (alter stopTracks id l).
Proof.
  split; [apply length_alter|].
  intros j s Hs. destruct (decide (id = j)) as [->|Hne].
  - exists (stopTracks s).
    pose proof (list_lookup_alter_eq stopTracks l j) as Ha.
    unfold MediaStream in *. rewrite Hs in Ha.
    split; [exact Ha|].
    split; [apply length_map | intros _; apply stopTracks_inactive].
  - exists s. split; [|auto].
    etransitivity; [apply list_lookup_alter_ne; assumption | exact Hs].
Qed.

Lemma stopCamera_onlyStops w : onlyStops (streams w) (streams (stopCamera w)).
Proof.
  unfold stopCamera. destruct (videoRef w) as [[id|]|];
    [apply onlyStops_alter | apply onlyStops_refl | apply onlyStops_refl].
Qed.

Lemma startCamera_onlyStops m w : onlyStops (streams w) (streams (startCamera m w)).
Proof. unfold startCamera. cbn. apply stopCamera_onlyStops. Qed.

Lemma commit_onlyStops old w : onlyStops (streams w) (streams (commit old w)).
Proof.
  unfold commit. destruct (AppStep_eqb old (step (react w))); [apply onlyStops_refl|].
  assert (He : forall x, onlyStops (streams x) (streams (stepEffect x))).
  { intros x. unfold stepEffect. destruct (step (react x)); try apply onlyStops_refl;
      apply (startCamera_onlyStops _ (onReact _ x)). }
  eapply onlyStops_trans; [|apply He].
  destruct refTiming.
  - apply (stopCamera_onlyStops (remount _ _ w)).
  - unfold remount. cbn. apply stopCamera_onlyStops.
Qed.

(** A stream enters the page only when a [getUserMedia] call is granted,
    one stream per grant; every other event keeps the streams there are,
    track for track, and never brings a stopped stream back to life. *)
Theorem streams_open_by_grant_and_stay_stopped (w : World) (e : Event) (w' : World) :
  handle w e = Some w' ->
  exists kept, streams w' = kept ++ opened e /\ onlyStops (streams w) kept.
Proof.
  unfold handle. intros H.
  destruct (dispatch w e) as [w1|] eqn:Hd; [|discriminate].
  inversion H; subst w'; clear H.
  assert (Hk : (exists i tracks, e = CameraResolves i tracks
                                 /\ streams w1 = streams w ++ opened e
                                 /\ step (react w1) = step (react w))
               \/ (opened e = [] /\ onlyStops (streams w) (streams w1))).
  { destruct e; cbn in Hd;
      unfold cameraResolves, cameraRejects, verificationResolves, verificationThrows in Hd;
      repeat inv_some; try solve [right; split; [reflexivity | apply onlyStops_refl]].
    - right. split; [reflexivity|]. unfold flipCamera.
      apply (startCamera_onlyStops _ (onReact _ w)).
    - right. split; [reflexivity|]. unfold captureImage.
      destruct (videoRef w); [|apply onlyStops_refl].
      destruct context; [|apply onlyStops_refl].
      destruct (step (react w));
        match goal with
        | |- context [stopCamera ?x] => apply (stopCamera_onlyStops x)
        end.
    - right. split; [reflexivity|]. unfold runVerification.
      destruct (negb (truthy_str (idImage (react w)))
                || negb (truthy_str (selfieImage (react w)))); apply onlyStops_refl.
    - left. exists i, tracks. repeat split. }
  destruct Hk as [(i & tracks & -> & Hs & Hst)|[Ho Hs]].
  - rewrite commit_noop by assumption. exists (streams w). split; [assumption | apply onlyStops_refl].
  - exists (streams (commit (step (react w)) w1)). rewrite Ho, app_nil_r.
    split; [reflexivity|]. eapply onlyStops_trans; [eassumption | apply commit_onlyStops].
Qed.

(** A granted stream is attached to the <video> that is mounted at that
    moment, in place of whatever was attached, which is not stopped; with
    no <video> mounted it is attached to nothing.  Either way it is live
    and no stream that was there is touched. *)
Theorem granted_stream_is_not_released (w : World) (i tracks : nat) (r : CameraRequest) :
  cameraRequests w !! i = Some r ->
  exists w', handle w (CameraResolves i tracks) = Some w'
    /\ react w' = react w
    /\ streams w' = streams w ++ [replicate tracks live]
    /\ ((0 < tracks)%nat -> active (replicate tracks live) = true)
    /\ (mounted w = true -> boundStream w' = Some (length (streams w)))
    /\ (mounted w = false -> boundStream w' = None)
    /\ (forall id, (id < length (streams w))%nat -> streams w' !! id = streams w !! id)
    /\ cameraRequests w' = delete i (cameraRequests w).
Proof.
  intros Hi. eexists. split.
  - unfold handle, dispatch, cameraResolves. rewrite Hi.
    rewrite commit_noop by reflexivity. reflexivity.
  - cbn. split; [reflexivity|]. split; [reflexivity|].
    split; [destruct tracks; [lia | reflexivity]|].
    unfold mounted, boundStream. cbn.
    destruct (videoRef w); (split; [intros; first [reflexivity | discriminate]|]);
      (split; [intros; first [reflexivity | discriminate]|]);
      (split; [intros id Hid; apply lookup_app_l; assumption | reflexivity]).
Qed.

(** Cancel clears the React state but withdraws no camera request: what
    was pending stays pending and none is added. *)
Theorem cancel_keeps_pending_requests (w : World) :
  cancelOffered (step (react w)) = true ->
  exists w', handle w ClickCancel = Some w'
    /\ step (react w') = Welcome
    /\ videoRef w' = None
    /\ cameraRequests w' = cameraRequests w.
Proof.
  intros Hc. unfold handle, dispatch. rewrite Hc.
  eexists. split; [reflexivity|].
  destruct w as [[s0 im sf r0 er fm hm] vr st cr ver vl en]. cbn in Hc.
  unfold commit, reset, remount, stopCamera, stepEffect.
  destruct s0; try discriminate Hc; cbn;
    destruct refTiming; cbn; destruct vr as [[?|]|]; cbn; repeat split.
Qed.

End App.


(** ** Overlapping camera requests *)

(** C8: the user starts, cancels while the camera request is pending and
    starts again; both requests are then granted.  Two streams are open
    at once: the first was attached to the <video> and then replaced by
    the second without being stopped. *)
Theorem C8_overlapping_requests_open_two_streams
    (build : Build) (JSON_parse : string -> option JsValue)
    (encodeJPEG : Z -> Canvas -> string) (refTiming : RefTiming) :
  exists w,
    run build JSON_parse encodeJPEG refTiming initial overlappingStarts = Some w
    /\ reachable build JSON_parse encodeJPEG refTiming w
    /\ step (react w) = CaptureId
    /\ streams w = [[live]; [live]]
    /\ length (openStreams w) = 2%nat
    /\ boundStream w = Some 1%nat.
Proof.
  exists (after build JSON_parse encodeJPEG refTiming overlappingStarts).
  split; [destruct refTiming; vm_compute; reflexivity|].
  split; [apply after_reachable|].
  destruct refTiming; vm_compute; repeat split.
Qed.

(** The same with the flip button pressed twice in a row. *)
Lemma double_flip_opens_two_streams
    (build : Build) (JSON_parse : string -> option JsValue)
    (encodeJPEG : Z -> Canvas -> string) (refTiming : RefTiming) :
  exists w,
    run build JSON_parse encodeJPEG refTiming initial doubleFlip = Some w
    /\ streams w = [[ended]; [live]; [live]]
    /\ length (openStreams w) = 2%nat
    /\ boundStream w = Some 2%nat.
Proof.
  exists (after build JSON_parse encodeJPEG refTiming doubleFlip).
  destruct refTiming; vm_compute; repeat split.
Qed.

(** A stream left over by overlapping requests is attached to nothing, so
    the shutter, which stops the attached stream, leaves it open. *)
Lemma capture_leaves_unattached_stream_open
    (build : Build) (JSON_parse : string -> option JsValue)
    (encodeJPEG : Z -> Canvas -> string) (refTiming : RefTiming) :
  exists w,
    run build JSON_parse encodeJPEG refTiming initial
        (overlappingStarts ++ [ClickShutter true sampleFrame]) = Some w
    /\ step (react w) = ReviewId
    /\ videoRef w = None
    /\ streams w = [[live]; [ended]]
    /\ length (openStreams w) = 1%nat.
Proof.
  exists (after build JSON_parse encodeJPEG refTiming
            (overlappingStarts ++ [ClickShutter true sampleFrame])).
  destruct refTiming; vm_compute; repeat split.
Qed.

(** ** A camera refusal that arrives during the verification call *)

(** C5: with a camera request still pending when the call is issued, the
    refusal of that request and of its retry stores the camera message
    while the call is in flight.  When the call then resolves with a
    well-formed match, the outcome is stored as it came, but the result
    screen shows the error heading and the camera message in place of the
    reasoning. *)
Theorem C5_late_camera_refusal_hides_the_outcome
    (build : Build) (encodeJPEG : Z -> Canvas -> string)
    (number_truthy : string -> bool) (refTiming : RefTiming) :
  exists w w',
    run build MiniJson.parse encodeJPEG refTiming initial staleRequestRefused = Some w
    /\ reachable build MiniJson.parse encodeJPEG refTiming w
    /\ step (react w) = Processing
    /\ error (react w) = Some cameraErrorMessage
    /\ MiniJson.parse sampleResponse = Some sampleOutcome
    /\ handle build MiniJson.parse encodeJPEG refTiming w
         (VerificationResolves (Some sampleResponse)) = Some w'
    /\ step (react w') = Result
    /\ result (react w') = sampleOutcome
    /\ get_prop (result (react w')) "reasoning" = JStr "faces match"
    /\ shownHeading number_truthy (react w') = HeadingError
    /\ shownText (react w') = JStr cameraErrorMessage.
Proof.
  exists (after build MiniJson.parse encodeJPEG refTiming staleRequestRefused).
  destruct (handle build MiniJson.parse encodeJPEG refTiming
              (after build MiniJson.parse encodeJPEG refTiming staleRequestRefused)
              (VerificationResolves (Some sampleResponse))) as [w'|] eqn:Hh.
  - exists w'. split; [destruct refTiming; vm_compute; reflexivity|].
    split; [apply after_reachable|].
    split; [destruct refTiming; vm_compute; reflexivity|].
    split; [destruct refTiming; vm_compute; reflexivity|].
    split; [vm_compute; reflexivity|]. split; [reflexivity|].
    destruct refTiming; vm_compute in Hh; inversion Hh; subst w'; vm_compute; repeat split.
  - exfalso. destruct refTiming; vm_compute in Hh; discriminate Hh.
Qed.

(** C9: in the same situation an answer without text is parsed as [{}]
    and the workflow reaches [result] with the empty object as outcome,
    but with the camera message as error, shown under the error
    heading. *)
Theorem C9_late_camera_refusal_leaves_an_error
    (build : Build) (encodeJPEG : Z -> Canvas -> string)
    (number_truthy : string -> bool) (refTiming : RefTiming) :
  exists w w',
    run build MiniJson.parse encodeJPEG refTiming initial selfieCameraRefused = Some w
    /\ reachable build MiniJson.parse encodeJPEG refTiming w
    /\ step (react w) = Processing
    /\ handle build MiniJson.parse encodeJPEG refTiming w (VerificationResolves None)
       = Some w'
    /\ step (react w') = Result
    /\ result (react w') = JObj []
    /\ error (react w') = Some cameraErrorMessage
    /\ shownHeading number_truthy (react w') = HeadingError
    /\ shownText (react w') = JStr cameraErrorMessage.
Proof.
  exists (after build MiniJson.parse encodeJPEG refTiming selfieCameraRefused).
  destruct (handle build MiniJson.parse encodeJPEG refTiming
              (after build MiniJson.parse encodeJPEG refTiming selfieCameraRefused)
              (VerificationResolves None)) as [w'|] eqn:Hh.
  - exists w'. split; [destruct refTiming; vm_compute; reflexivity|].
    split; [apply after_reachable|].
    split; [destruct refTiming; vm_compute; reflexivity|]. split; [reflexivity|].
    destruct refTiming; vm_compute in Hh; inversion Hh; subst w'; vm_compute; repeat split.
  - exfalso. destruct refTiming; vm_compute in Hh; discriminate Hh.
Qed.

(** ** The results on the sample data *)

#[local] Abbreviation sampleHandle :=
  (handle IndexTsx MiniJson.parse sampleEncoder DetachThenCleanup).
#[local] Abbreviation sampleAfter :=
  (after IndexTsx MiniJson.parse sampleEncoder DetachThenCleanup).
#[local] Abbreviation sampleReachable :=
  (after_reachable IndexTsx MiniJson.parse sampleEncoder DetachThenCleanup).

(** Cancel while the ID photo is under review. *)
Lemma C1_cancel_resets_workflow_witness :
  step (react (sampleAfter toReviewId)) = ReviewId
  /\ exists w', sampleHandle (sampleAfter toReviewId) ClickCancel = Some w'
                /\ step (react w') = Welcome
                /\ idImage (react w') = None
                /\ selfieImage (react w') = None
                /\ result (react w') = JNull
                /\ error (react w') = None.
Proof.
  split; [vm_compute; reflexivity|].
  refine (proj2 (C1_cancel_resets_workflow IndexTsx MiniJson.parse sampleEncoder
                   DetachThenCleanup (sampleAfter toReviewId) _ _ _));
    vm_compute; discriminate.
Defined.

(** The ID photo is there once it is under review. *)
Lemma C2_review_step_has_its_image_witness :
  step (react (sampleAfter toReviewId)) = ReviewId
  /\ idImage (react (sampleAfter toReviewId)) <> None.
Proof.
  split; [vm_compute; reflexivity|].
  apply (C2_review_step_has_its_image IndexTsx MiniJson.parse sampleEncoder
           DetachThenCleanup (sampleAfter toReviewId) (sampleReachable toReviewId)).
  vm_compute; reflexivity.
Defined.

(** Confirming the selfie with both photos taken issues one call;
    confirming the ID photo, which is there, moves on to the selfie. *)
Lemma C3_confirm_guards_witness :
  (step (react (sampleAfter toReviewSelfie)) = ReviewSelfie
   /\ exists w', sampleHandle (sampleAfter toReviewSelfie) ClickConfirm = Some w'
                 /\ step (react w') = Processing
                 /\ verificationLog w' = [(Some "/9j/4AAQ", Some "/9j/4AAQ")])
  /\ (step (react (sampleAfter toReviewId)) = ReviewId
      /\ exists w', sampleHandle (sampleAfter toReviewId) ClickConfirm = Some w'
                    /\ (step (react w') = CaptureSelfie
                        <-> idImage (react (sampleAfter toReviewId)) <> None)
                    /\ step (react w') = CaptureSelfie
                    /\ idImage (react (sampleAfter toReviewId)) <> None).
Proof.
  split; (split; [vm_compute; reflexivity|]).
  - destruct (proj1 (C3_confirm_guards IndexTsx MiniJson.parse sampleEncoder
                       DetachThenCleanup (sampleAfter toReviewSelfie)) eq_refl)
      as (w' & Hh & Hcall & _).
    destruct (Hcall (conj eq_refl eq_refl)) as (Hs & _ & Hl).
    exists w'. split; [exact Hh|]. split; [exact Hs | exact Hl].
  - destruct (proj2 (C3_confirm_guards IndexTsx MiniJson.parse sampleEncoder
                       DetachThenCleanup (sampleAfter toReviewId))
                (sampleReachable toReviewId) eq_refl)
      as (w' & Hh & Hiff & _ & Hs & Hn & _).
    exists w'. split; [exact Hh|]. split; [exact Hiff|]. split; [exact Hs | exact Hn].
Defined.

(** Retake of the ID photo: the photo stays until the next shutter press. *)
Lemma C4_retake_keeps_both_images_witness :
  step (react (sampleAfter toReviewId)) = ReviewId
  /\ exists w', sampleHandle (sampleAfter toReviewId) ClickRetake = Some w'
                /\ step (react w') = CaptureId
                /\ idImage (react w') = Some "data:image/jpeg;base64,/9j/4AAQ"
                /\ selfieImage (react w') = None.
Proof.
  split; [vm_compute; reflexivity|].
  destruct (C4_retake_keeps_both_images IndexTsx MiniJson.parse sampleEncoder
              DetachThenCleanup (sampleAfter toReviewId) (or_introl eq_refl))
    as (w' & Hh & Hs & Hi & Hf & _).
  exists w'. split; [exact Hh|]. split; [exact Hs|]. split; [exact Hi | exact Hf].
Defined.

(** After retake of a reviewed ID photo the ID image is not null. *)
Lemma C4_counterexample :
  reachable IndexTsx MiniJson.parse sampleEncoder DetachThenCleanup (sampleAfter toReviewId)
  /\ step (react (sampleAfter toReviewId)) = ReviewId
  /\ exists w', sampleHandle (sampleAfter toReviewId) ClickRetake = Some w'
                /\ step (react w') = CaptureId
                /\ idImage (react w') = idImage (react (sampleAfter toReviewId))
                /\ idImage (react w') <> None.
Proof.
  split; [apply after_reachable|]. split; [vm_compute; reflexivity|].
  eexists. split; [vm_compute; reflexivity|].
  split; [reflexivity|]. split; [vm_compute; reflexivity | discriminate].
Qed.

(** The first example scenario: the call answers with a match. *)
Lemma success_stores_response_witness :
  step (react (sampleAfter toProcessing)) = Processing
  /\ MiniJson.parse sampleResponse = Some sampleOutcome
  /\ exists w', sampleHandle (sampleAfter toProcessing)
                  (VerificationResolves (Some sampleResponse)) = Some w'
                /\ step (react w') = Result
                /\ result (react w') = sampleOutcome
                /\ shownMatch MiniJson.number_truthy (react w') = true
                /\ shownText (react w') = JStr "faces match"
                /\ shownHeading MiniJson.number_truthy (react w') = HeadingPassed.
Proof.
  split; [vm_compute; reflexivity|]. split; [vm_compute; reflexivity|].
  destruct (success_stores_response IndexTsx MiniJson.parse sampleEncoder
              MiniJson.number_truthy DetachThenCleanup
              (sampleAfter toProcessing) (Some sampleResponse) sampleOutcome
              true "faces match"
              (sampleReachable toProcessing) eq_refl eq_refl eq_refl eq_refl)
    as (w' & Hh & Hs & Hr & _ & _ & Hm & _ & Hshown & _).
  destruct (Hshown eq_refl) as [Ht Hhd].
  exists w'. repeat (split; [assumption|]). assumption.
Defined.

(** The second example scenario: the call throws. *)
Lemma C6_failure_ends_in_result_witness :
  step (react (sampleAfter toProcessing)) = Processing
  /\ exists w', sampleHandle (sampleAfter toProcessing) VerificationThrows = Some w'
                /\ step (react w') = Result
                /\ error (react w') = Some verificationErrorMessage
                /\ result (react w') = JNull
                /\ verificationLog w' = verificationLog (sampleAfter toProcessing).
Proof.
  split; [vm_compute; reflexivity|].
  destruct (C6_failure_ends_in_result IndexTsx MiniJson.parse sampleEncoder
              MiniJson.number_truthy DetachThenCleanup
              (sampleAfter toProcessing) VerificationThrows
              (sampleReachable toProcessing) eq_refl (or_introl eq_refl))
    as (w' & Hh & Hs & He & Hr & _ & _ & _ & Hl & _).
  exists w'. repeat (split; [assumption|]). assumption.
Defined.

(** The shutter on the back camera with one stream attached, on the
    sample frame and on a frame without pixels. *)
Lemma C7_capture_mirrors_encodes_releases_witness :
  videoRef (sampleAfter toCaptureId) = Some (Some 0%nat)
  /\ (exists w', sampleHandle (sampleAfter toCaptureId) (ClickShutter true sampleFrame)
                 = Some w'
                 /\ idImage (react w') = Some "data:image/jpeg;base64,/9j/4AAQ"
                 /\ videoRef w' = None
                 /\ openStreams w' = [])
  /\ (exists w', sampleHandle (sampleAfter toCaptureId) (ClickShutter true blankFrame)
                 = Some w'
                 /\ idImage (react w') = Some "data:,"
                 /\ boundStream w' = None).
Proof.
  split; [vm_compute; reflexivity|]. split.
  - destruct (C7_capture_mirrors_encodes_releases IndexTsx MiniJson.parse sampleEncoder
                DetachThenCleanup (sampleAfter toCaptureId) sampleFrame 0%nat
                eq_refl eq_refl)
      as (w' & Hh & Hi & _ & _ & _ & _ & _ & _ & _ & Hv & _ & _ & Ho).
    exists w'. split; [exact Hh|]. split; [exact Hi|]. split; [exact Hv|].
    apply Ho. intros [|[|j]] s Hj Hne; [congruence | discriminate Hj | discriminate Hj].
  - destruct (C7_capture_mirrors_encodes_releases IndexTsx MiniJson.parse sampleEncoder
                DetachThenCleanup (sampleAfter toCaptureId) blankFrame 0%nat
                eq_refl eq_refl)
      as (w' & Hh & Hi & _ & _ & _ & _ & Hz & _ & Hb & _).
    exists w'. split; [exact Hh|]. split; [|exact Hb].
    rewrite <- (Hz (or_introl eq_refl)). exact Hi.
Defined.

(** The shutter with a stream attached does not always give a JPEG, and
    does not always leave every stream stopped: a frame without pixels is
    stored as [data:,], and a stream that overlapping requests left
    attached to nothing stays live. *)
Lemma C7_counterexample :
  (boundStream (sampleAfter toCaptureId) = Some 0%nat
   /\ exists w', sampleHandle (sampleAfter toCaptureId) (ClickShutter true blankFrame)
                 = Some w'
                 /\ step (react w') = ReviewId
                 /\ idImage (react w') = Some "data:,")
  /\ (boundStream (sampleAfter overlappingStarts) = Some 1%nat
      /\ exists w', sampleHandle (sampleAfter overlappingStarts)
                      (ClickShutter true sampleFrame) = Some w'
                    /\ step (react w') = ReviewId
                    /\ streams w' = [[live]; [ended]]
                    /\ openStreams w' = [[live]]).
Proof.
  split; (split; [vm_compute; reflexivity|]);
    eexists; (split; [vm_compute; reflexivity|]); repeat split.
Qed.

(** The call answers with no text at all. *)
Lemma empty_text_is_empty_object_witness :
  MiniJson.parse "{}" = Some (JObj [])
  /\ step (react (sampleAfter toProcessing)) = Processing
  /\ exists w', sampleHandle (sampleAfter toProcessing) (VerificationResolves None) = Some w'
                /\ step (react w') = Result
                /\ result (react w') = JObj []
                /\ error (react w') = None.
Proof.
  split; [reflexivity|]. split; [vm_compute; reflexivity|].
  destruct (empty_text_is_empty_object IndexTsx MiniJson.parse sampleEncoder
              MiniJson.number_truthy DetachThenCleanup
              (sampleAfter toProcessing) None
              eq_refl (sampleReachable toProcessing) eq_refl (or_introl eq_refl))
    as (w' & Hh & Hs & Hr & _ & _ & _ & _ & He & _).
  exists w'. split; [exact Hh|]. split; [exact Hs|]. split; [exact Hr|].
  rewrite He. vm_compute. reflexivity.
Defined.

(** An outcome is stored once the first scenario has reached [result]. *)
Lemma C10_outcome_only_in_result_witness :
  result (react (sampleAfter toResult)) = sampleOutcome
  /\ step (react (sampleAfter toResult)) = Result.
Proof.
  split; [vm_compute; reflexivity|].
  apply (C10_outcome_only_in_result IndexTsx MiniJson.parse sampleEncoder
           DetachThenCleanup (sampleAfter toResult) (sampleReachable toResult)).
  vm_compute. discriminate.
Defined.

(** ** The further results on the sample data *)

(** Releasing twice on the capture screen, and releasing on the first
    render where nothing is attached. *)
Lemma stopCamera_idempotent_witness :
  stopCamera (stopCamera (sampleAfter toCaptureId)) = stopCamera (sampleAfter toCaptureId)
  /\ boundStream initial = None
  /\ stopCamera initial = initial.
Proof.
  split; [apply (stopCamera_idempotent (sampleAfter toCaptureId))|].
  split; [reflexivity|].
  apply (stopCamera_idempotent initial). reflexivity.
Defined.

(** Two video inputs: the flip button is there. *)
Lemma flip_offered_iff_several_cameras_witness :
  run IndexTsx MiniJson.parse sampleEncoder DetachThenCleanup initial toFlip
  = Some (sampleAfter toFlip)
  /\ flipOffered (react (sampleAfter toFlip)) = true.
Proof.
  split; [vm_compute; reflexivity|].
  apply (flip_offered_iff_several_cameras IndexTsx MiniJson.parse sampleEncoder
           DetachThenCleanup toFlip (sampleAfter toFlip) eq_refl).
  split; [reflexivity|]. exists 2%nat. split; [left; reflexivity | lia].
Defined.

(** Flipping from the back camera with its stream running. *)
Lemma flip_toggles_and_releases_witness :
  flipOffered (react (sampleAfter toFlip)) = true
  /\ facingMode (react (sampleAfter toFlip)) = environment
  /\ exists w', sampleHandle (sampleAfter toFlip) ClickFlip = Some w'
                /\ facingMode (react w') = user
                /\ boundStream w' = None
                /\ cameraRequests w' = [AwaitPrimary (Ideal user 1920 1080)].
Proof.
  split; [vm_compute; reflexivity|]. split; [vm_compute; reflexivity|].
  destruct (flip_toggles_and_releases IndexTsx MiniJson.parse sampleEncoder
              DetachThenCleanup (sampleAfter toFlip) eq_refl)
    as (w' & Hh & Hf & _ & _ & _ & Hb & _ & _ & Hc & _).
  exists w'. split; [exact Hh|]. split; [exact Hf|]. split; [exact Hb | exact Hc].
Defined.

(** The shutter with no 2D context. *)
Lemma shutter_without_context_does_nothing_witness :
  rendersVideo (step (react (sampleAfter toCaptureId))) = true
  /\ sampleHandle (sampleAfter toCaptureId) (ClickShutter false sampleFrame)
     = Some (sampleAfter toCaptureId).
Proof.
  split; [vm_compute; reflexivity|].
  apply (shutter_without_context_does_nothing IndexTsx MiniJson.parse sampleEncoder
           DetachThenCleanup (sampleAfter toCaptureId) false sampleFrame eq_refl
           (or_introl eq_refl)).
Defined.

(** The camera refuses the first request and then the retry. *)
Lemma camera_falls_back_once_witness :
  cameraRequests (sampleAfter [ClickStart]) !! 0%nat
  = Some (AwaitPrimary (Ideal environment 1920 1080))
  /\ exists w1 w2,
      sampleHandle (sampleAfter [ClickStart]) (CameraRejects 0) = Some w1
      /\ cameraRequests w1 = [AwaitFallback AnyVideo]
      /\ error (react w1) = None
      /\ sampleHandle w1 (CameraRejects 0) = Some w2
      /\ error (react w2) = Some cameraErrorMessage
      /\ step (react w2) = CaptureId.
Proof.
  split; [vm_compute; reflexivity|].
  destruct (camera_falls_back_once IndexTsx MiniJson.parse sampleEncoder
              DetachThenCleanup (sampleAfter [ClickStart]) 0%nat
              (Ideal environment 1920 1080) eq_refl)
    as (w1 & H1 & Hr & _ & _ & Hc & (w2 & H2 & He & Hs & _) & _).
  exists w1, w2. split; [exact H1|]. split; [exact Hc|].
  split; [rewrite Hr; reflexivity|]. split; [exact H2|]. split; [exact He | exact Hs].
Defined.

(** Start Verification from the welcome screen. *)
Lemma entering_capture_starts_camera_witness :
  sampleHandle initial ClickStart = Some (sampleAfter [ClickStart])
  /\ facingMode (react (sampleAfter [ClickStart])) = environment
  /\ videoRef (sampleAfter [ClickStart]) = Some None
  /\ cameraRequests (sampleAfter [ClickStart])
     = [AwaitPrimary (Ideal environment 1920 1080)].
Proof.
  split; [vm_compute; reflexivity|].
  assert (Hne : step (react (sampleAfter [ClickStart])) <> step (react initial))
    by (vm_compute; discriminate).
  destruct (entering_capture_starts_camera IndexTsx MiniJson.parse sampleEncoder
              DetachThenCleanup initial ClickStart (sampleAfter [ClickStart])
              eq_refl Hne eq_refl)
    as (_ & Hf & Hv & Hc).
  split; [exact Hf|]. split; [exact Hv | exact Hc].
Defined.

(** Under review no <video> is on the page. *)
Lemma video_mounted_only_while_capturing_witness :
  mounted (sampleAfter toReviewId) = false
  /\ boundStream (sampleAfter toReviewId) = None.
Proof.
  destruct (video_mounted_only_while_capturing IndexTsx MiniJson.parse sampleEncoder
              DetachThenCleanup (sampleAfter toReviewId) (sampleReachable toReviewId))
    as [Hm Hb].
  split; [exact Hm | exact (Hb eq_refl)].
Defined.

(** After both camera requests were refused the camera message is stored. *)
Lemma error_is_a_fixed_message_witness :
  error (react (sampleAfter [ClickStart; CameraRejects 0; CameraRejects 0]))
  = Some cameraErrorMessage
  /\ fixedMessage
       (error (react (sampleAfter [ClickStart; CameraRejects 0; CameraRejects 0]))).
Proof.
  split; [vm_compute; reflexivity|].
  apply (error_is_a_fixed_message IndexTsx MiniJson.parse sampleEncoder DetachThenCleanup
           (sampleAfter [ClickStart; CameraRejects 0; CameraRejects 0])
           (sampleReachable [ClickStart; CameraRejects 0; CameraRejects 0])).
Defined.

(** The payload cut out of the capture of the sample frame. *)
Lemma payload_is_the_encoder_output_witness :
  noComma (sampleEncoder 90 (paint environment sampleFrame)) = true
  /\ base64Of (Some (toDataURL sampleEncoder 90 (paint environment sampleFrame)))
     = Some "/9j/4AAQ".
Proof.
  split; [reflexivity|].
  apply (payload_is_the_encoder_output sampleEncoder 90 (paint environment sampleFrame));
    reflexivity.
Defined.

(** The capture of a frame without pixels. *)
Lemma blank_frame_is_captured_witness :
  videoWidth blankFrame = 0%N
  /\ toDataURL sampleEncoder 90 (paint user blankFrame) = "data:,"
  /\ base64Of (Some (toDataURL sampleEncoder 90 (paint user blankFrame))) = Some EmptyString.
Proof.
  split; [reflexivity|].
  destruct (blank_frame_is_captured sampleEncoder user blankFrame 90 (or_introl eq_refl))
    as (Hu & _ & Hb).
  split; [exact Hu | exact Hb].
Defined.

(** The call in flight in the first example scenario. *)
Lemma calls_carry_both_payloads_witness :
  verification (sampleAfter toProcessing) = Some (Some "/9j/4AAQ", Some "/9j/4AAQ")
  /\ Some "/9j/4AAQ" <> @None string.
Proof.
  split; [vm_compute; reflexivity|].
  apply (proj2 (calls_carry_both_payloads IndexTsx MiniJson.parse sampleEncoder
                  DetachThenCleanup (sampleAfter toProcessing)
                  (sampleReachable toProcessing))
           (Some "/9j/4AAQ", Some "/9j/4AAQ") eq_refl).
Defined.

(** The shutter on the ID capture screen moves one step forward. *)
Lemma steps_follow_the_wizard_witness :
  sampleHandle (sampleAfter toCaptureId) (ClickShutter true sampleFrame)
  = Some (sampleAfter toReviewId)
  /\ (step (react (sampleAfter toReviewId)) = step (react (sampleAfter toCaptureId))
      \/ nextStep (step (react (sampleAfter toCaptureId)))
                  (step (react (sampleAfter toReviewId))) = true).
Proof.
  split; [vm_compute; reflexivity|].
  apply (steps_follow_the_wizard IndexTsx MiniJson.parse sampleEncoder DetachThenCleanup
           (sampleAfter toCaptureId) (ClickShutter true sampleFrame)
           (sampleAfter toReviewId) (sampleReachable toCaptureId)).
  vm_compute; reflexivity.
Defined.

(** No Cancel while the call of the first example scenario is in flight. *)
Lemma processing_waits_for_the_call_witness :
  step (react (sampleAfter toProcessing)) = Processing
  /\ sampleHandle (sampleAfter toProcessing) ClickCancel = None.
Proof.
  split; [vm_compute; reflexivity|].
  apply (proj1 (processing_waits_for_the_call IndexTsx MiniJson.parse sampleEncoder
                  DetachThenCleanup (sampleAfter toProcessing)
                  (sampleReachable toProcessing) eq_refl)).
  reflexivity.
Defined.

(** The one call of the first example scenario. *)
Lemma calls_never_overlap_witness :
  sampleHandle (sampleAfter toReviewSelfie) ClickConfirm = Some (sampleAfter toProcessing)
  /\ verificationLog (sampleAfter toProcessing) <> verificationLog (sampleAfter toReviewSelfie)
  /\ verification (sampleAfter toReviewSelfie) = None
  /\ step (react (sampleAfter toProcessing)) = Processing.
Proof.
  assert (Hh : sampleHandle (sampleAfter toReviewSelfie) ClickConfirm
               = Some (sampleAfter toProcessing)) by (vm_compute; reflexivity).
  assert (Hl : verificationLog (sampleAfter toProcessing)
               <> verificationLog (sampleAfter toReviewSelfie))
    by (vm_compute; discriminate).
  destruct (calls_never_overlap IndexTsx MiniJson.parse sampleEncoder DetachThenCleanup
              (sampleAfter toReviewSelfie) ClickConfirm (sampleAfter toProcessing)
              (sampleReachable toReviewSelfie) Hh Hl)
    as (_ & _ & Hv & _ & _ & Hs & _).
  split; [exact Hh|]. split; [exact Hl|]. split; [exact Hv | exact Hs].
Defined.

(** The ID image changes when the shutter stores the first capture. *)
Lemma images_change_only_by_shutter_or_reset_witness :
  sampleHandle (sampleAfter toCaptureId) (ClickShutter true sampleFrame)
  = Some (sampleAfter toReviewId)
  /\ idImage (react (sampleAfter toReviewId)) <> idImage (react (sampleAfter toCaptureId))
  /\ ((exists v, ClickShutter true sampleFrame = ClickShutter true v
                 /\ step (react (sampleAfter toCaptureId)) = CaptureId
                 /\ step (react (sampleAfter toReviewId)) = ReviewId)
      \/ ((ClickShutter true sampleFrame = ClickCancel
           \/ ClickShutter true sampleFrame = ClickNewVerification)
          /\ idImage (react (sampleAfter toReviewId)) = None)).
Proof.
  assert (Hh : sampleHandle (sampleAfter toCaptureId) (ClickShutter true sampleFrame)
               = Some (sampleAfter toReviewId)) by (vm_compute; reflexivity).
  assert (Hn : idImage (react (sampleAfter toReviewId))
               <> idImage (react (sampleAfter toCaptureId)))
    by (vm_compute; discriminate).
  split; [exact Hh|]. split; [exact Hn|].
  apply (proj1 (images_change_only_by_shutter_or_reset IndexTsx MiniJson.parse sampleEncoder
                  DetachThenCleanup (sampleAfter toCaptureId)
                  (ClickShutter true sampleFrame) (sampleAfter toReviewId) Hh) Hn).
Defined.

(** The grant of the first camera request opens one stream. *)
Lemma streams_open_by_grant_and_stay_stopped_witness :
  sampleHandle (sampleAfter [ClickStart]) (CameraResolves 0 1) = Some (sampleAfter toCaptureId)
  /\ exists kept, streams (sampleAfter toCaptureId) = kept ++ [[live]]
                  /\ onlyStops (streams (sampleAfter [ClickStart])) kept.
Proof.
  assert (Hh : sampleHandle (sampleAfter [ClickStart]) (CameraResolves 0 1)
               = Some (sampleAfter toCaptureId)) by (vm_compute; reflexivity).
  split; [exact Hh|].
  apply (streams_open_by_grant_and_stay_stopped IndexTsx MiniJson.parse sampleEncoder
           DetachThenCleanup (sampleAfter [ClickStart]) (CameraResolves 0 1)
           (sampleAfter toCaptureId) Hh).
Defined.

(** A request granted after Cancel, on the welcome screen. *)
Lemma granted_stream_is_not_released_witness :
  cameraRequests (sampleAfter [ClickStart; ClickCancel]) !! 0%nat
  = Some (AwaitPrimary (Ideal environment 1920 1080))
  /\ mounted (sampleAfter [ClickStart; ClickCancel]) = false
  /\ exists w', sampleHandle (sampleAfter [ClickStart; ClickCancel]) (CameraResolves 0 1)
                = Some w'
                /\ streams w' = [[live]]
                /\ boundStream w' = None.
Proof.
  split; [vm_compute; reflexivity|]. split; [vm_compute; reflexivity|].
  destruct (granted_stream_is_not_released IndexTsx MiniJson.parse sampleEncoder
              DetachThenCleanup (sampleAfter [ClickStart; ClickCancel]) 0%nat 1%nat
              (AwaitPrimary (Ideal environment 1920 1080)) eq_refl)
    as (w' & Hh & _ & Hs & _ & _ & Hb & _).
  exists w'. split; [exact Hh|]. split; [exact Hs | exact (Hb eq_refl)].
Defined.

(** Cancel while the first camera request is pending. *)
Lemma cancel_keeps_pending_requests_witness :
  cancelOffered (step (react (sampleAfter [ClickStart]))) = true
  /\ exists w', sampleHandle (sampleAfter [ClickStart]) ClickCancel = Some w'
                /\ step (react w') = Welcome
                /\ cameraRequests w' = [AwaitPrimary (Ideal environment 1920 1080)].
Proof.
  split; [vm_compute; reflexivity|].
  destruct (cancel_keeps_pending_requests IndexTsx MiniJson.parse sampleEncoder
              DetachThenCleanup (sampleAfter [ClickStart]) eq_refl)
    as (w' & Hh & Hs & _ & Hc).
  exists w'. split; [exact Hh|]. split; [exact Hs | exact Hc].
Defined.
